(** * Dashboard grid: state manager and grid/interaction engine

    A shallow embedding of [dashboard/js/state.js] (class [StateManager])
    and of the grid engine (class [GridManager], [grid.js]) of the
    dashboard, and the properties of the layout they maintain.

    Conventions of the embedding.
    - JavaScript numbers that hold grid coordinates are integers of [Z];
      the pixel arithmetic of the pointer handlers (a division followed
      by [Math.round]) is taken as already rounded, so a pointer event
      is given by its position or delta in grid cells.
    - An object whose fields may be missing is a record of [option]s;
      [a || d] on such a field is [Js.or_default]. An element of an
      imported [widgets] array is [null], [undefined] or a widget
      object.
    - The state manager on its own ([State], [Grid]) records each [emit]
      in an event log. The callbacks that the repository registers are
      run by [Page]: the engine's [updateWidgetElement], the
      [setConfig] of the widget's instance and the application's
      [widget-config-changed] listener, which calls [updateWidget] again
      from inside the [emit]. They write [config] and nothing else of a
      record. The debounced write to local storage, which the wildcard
      listener schedules, is in [Persist].
    - Of the DOM the embedding has the grid lines in the style of the
      element being resized, which [endResize] reads back through
      [getComputedStyle] and [parseInt] ([resize_element]). *)

From Stdlib Require Import ZArith Lia Bool Ascii String DecimalString DecimalNat DecimalZ.
From stdpp Require Import base list list_numbers strings gmap.

#[local] Open Scope string_scope.
#[local] Open Scope list_scope.
#[local] Open Scope Z_scope.

(** ** JavaScript values *)

Module Js.

(** [`${z}`] for an integer. *)
Definition int_to_string (z : Z) : string :=
  NilZero.string_of_int (Z.to_int z).

(** Truthiness of a possibly missing number: [undefined] and [0] are falsy. *)
Definition truthy_num (o : option Z) : bool :=
  match o with
  | Some v => negb (v =? 0)
  | None => false
  end.

(** [o || d] on a possibly missing number. *)
Definition or_default (o : option Z) (d : Z) : Z :=
  match o with
  | Some v => if v =? 0 then d else v
  | None => d
  end.

(** Truthiness of a string: only the empty string is falsy. *)
Definition truthy_str (s : string) : bool :=
  match s with
  | EmptyString => false
  | String _ _ => true
  end.

(** No ["-"] occurs in the string. *)
Fixpoint no_dash (s : string) : bool :=
  match s with
  | EmptyString => true
  | String c s' => negb (Ascii.eqb c "-") && no_dash s'
  end.

(** [Math.max(...l, 0)]. *)
Definition math_max0 (l : list Z) : Z := foldr Z.max 0 l.

(** [for (let i = lo; i < lo + n; i++) { ... return r ... }]: the first
    iteration whose body returns ends the loop. *)
Fixpoint for_return {A : Type} (n : nat) (i : Z) (body : Z → option A) : option A :=
  match n with
  | O => None
  | S n' =>
      match body i with
      | Some r => Some r
      | None => for_return n' (i + 1) body
      end
  end.

(** [for (let i = lo; i < lo + n && flag; i++) { if (!test i) flag = false }]
    started with the flag set: the value of the flag at loop exit. *)
Fixpoint for_flag (n : nat) (i : Z) (test : Z → bool) : bool :=
  match n with
  | O => true
  | S n' => if test i then for_flag n' (i + 1) test else false
  end.

(** A number that may be [NaN]. *)
Inductive Num : Type :=
| Finite (z : Z)
| NaN.

(** [a - b]. *)
Definition minus (a b : Num) : Num :=
  match a, b with
  | Finite a, Finite b => Finite (a - b)
  | _, _ => NaN
  end.

(** [a !== b], where [b] is a number that is not [NaN]. *)
Definition differs (a : Num) (b : Z) : bool :=
  match a with
  | Finite a => negb (a =? b)
  | NaN => true
  end.

(** The value of a digit in base 10 and in base 16. *)
Definition digit (c : ascii) : option Z :=
  let n := Z.of_N (N_of_ascii c) in
  if (48 <=? n) && (n <=? 57) then Some (n - 48) else None.

Definition hexDigit (c : ascii) : option Z :=
  let n := Z.of_N (N_of_ascii c) in
  if (48 <=? n) && (n <=? 57) then Some (n - 48)
  else if (65 <=? n) && (n <=? 70) then Some (n - 55)
  else if (97 <=? n) && (n <=? 102) then Some (n - 87)
  else None.

(** White space that [parseInt] skips. *)
Definition isSpace (c : ascii) : bool :=
  let n := Z.of_N (N_of_ascii c) in
  (n =? 32) || ((9 <=? n) && (n <=? 13)).

Fixpoint trimStart (s : string) : string :=
  match s with
  | String c r => if isSpace c then trimStart r else s
  | EmptyString => s
  end.

(** The number that the digits at the head of the string spell. *)
Fixpoint digits (base : Z) (value : ascii → option Z) (acc : Z) (s : string) : Z :=
  match s with
  | String c r =>
      match value c with
      | Some d => digits base value (base * acc + d) r
      | None => acc
      end
  | EmptyString => acc
  end.

(** [parseInt(s)]: white space is skipped, a sign is read, then the
    digits up to the first character that is not one (in base 16 after
    [0x] or [0X], in base 10 otherwise); [NaN] when no digit is there. *)
Definition parseInt (s : string) : Num :=
  let s := trimStart s in
  let '(negative, s) :=
    match s with
    | String "-" r => (true, r)
    | String "+" r => (false, r)
    | _ => (false, s)
    end in
  let '(base, value, s) :=
    match s with
    | String "0" (String "x" r) | String "0" (String "X" r) => (16, hexDigit, r)
    | _ => (10, digit, s)
    end in
  match s with
  | String c _ =>
      match value c with
      | Some _ => let n := digits base value 0 s in Finite (if negative : bool then - n else n)
      | None => NaN
      end
  | EmptyString => NaN
  end.

End Js.

(** ** Data model *)

(** A value of a widget configuration, opaque to the core. *)
Inductive ConfigValue : Type :=
| CString (s : string)
| CNumber (z : Z)
| CBool (b : bool).

Definition Config : Type := gmap string ConfigValue.
Definition Settings : Type := gmap string bool.

Record GridSettings : Type := mkGrid {
  cols : Z;
  rowHeight : Z;
  gap : Z
}.

(** A widget record of the canonical list. *)
Record Widget : Type := mkWidget {
  wid : string;
  wtype : string;
  wx : Z;
  wy : Z;
  ww : Z;
  wh : Z;
  wminimized : bool;
  wconfig : option Config
}.

(** The argument of [addWidget]: any field but the type tag may be missing. *)
Record WidgetData : Type := mkData {
  did : option string;
  dtype : string;
  dx : option Z;
  dy : option Z;
  dw : option Z;
  dh : option Z;
  dminimized : option bool;
  dconfig : option Config
}.

(** The argument of [updateWidget]: the fields the callers of the
    repository pass ([{x,y}], [{w}], [{h}], [{x,y,w,h}], [{minimized}],
    [{config}]). *)
Record Updates : Type := mkUpdates {
  ux : option Z;
  uy : option Z;
  uw : option Z;
  uh : option Z;
  uminimized : option bool;
  uconfig : option Config
}.

(** A widget of an imported layout: as a widget record, but the id may
    be missing. *)
Record LayoutWidget : Type := mkLayoutWidget {
  lid : option string;
  ltype : string;
  lx : Z;
  ly : Z;
  lw : Z;
  lh : Z;
  lminimized : bool;
  lconfig : option Config
}.

(** What [layoutData.widgets] may hold. *)
Inductive NonArray : Type :=
| JsNull
| JsBool (b : bool)
| JsNumber (z : Z)
| JsString (s : string)
| JsObject.

(** An element of the [widgets] array of a layout: [null] or
    [undefined], of which no property can be read, or a widget object. *)
Inductive LayoutElement : Type :=
| ElementNullish
| ElementWidget (widget : LayoutWidget).

Inductive WidgetsField : Type :=
| WidgetsMissing
| WidgetsNonArray (v : NonArray)
| WidgetsArray (l : list LayoutElement).

Record LayoutData : Type := mkLayout {
  l_grid : option GridSettings;
  l_widgets : WidgetsField;
  l_theme : option string;
  l_settings : option Settings;
  l_version : option string;
  l_exportedAt : option string
}.

(** [this.state]. The field [exportedAt] is not part of the default
    state: it appears once a layout that carries one has been imported
    (the import spreads every field of the layout into the state). *)
Record AppState : Type := mkState {
  grid : GridSettings;
  widgets : list Widget;
  theme : string;
  settings : Settings;
  version : string;
  exportedAt : option string
}.

(** [error.message] of what a [try] block caught: the text of an
    [Error] that the code throws itself, or the text the engine gives
    the [TypeError] of reading a property of [null] or [undefined]. *)
Inductive ErrorMessage : Type :=
| MessageText (text : string)
| TypeErrorText.

Inductive Event : Type :=
| widget_added (widget : Widget)
| widget_updated (widget old : Widget) (updates : Updates)
| widget_removed (widget : Widget)
| theme_changed (theme oldTheme : string)
| settings_updated (settings old : Settings)
| layout_imported (layout : LayoutData) (backup : AppState)
| import_error (message : ErrorMessage)
| layout_exported (layout : LayoutData)
| layout_reset (backup : AppState).

(** The state manager: its state and the events emitted so far, oldest
    first. *)
Record StateManager : Type := mkManager {
  state : AppState;
  emitted : list Event
}.

Definition set_widgets (ws : list Widget) (s : AppState) : AppState :=
  mkState (grid s) ws (theme s) (settings s) (version s) (exportedAt s).

Definition set_position (x y : Z) (w : Widget) : Widget :=
  mkWidget (wid w) (wtype w) x y (ww w) (wh w) (wminimized w) (wconfig w).

(** ** The state manager *)

Module State.

(** Source: [StateManager.getDefaultWidgets], state.js, line 45. *)
Definition getDefaultWidgets : list Widget :=
  [ mkWidget "clock-1" "clock" 0 0 3 2 false
      (Some (list_to_map [("title", CString "Clock"); ("format", CString "24h");
                          ("showAnalog", CBool false); ("timezone", CString "local")]));
    mkWidget "weather-1" "weather" 3 0 3 2 false
      (Some (list_to_map [("title", CString "Weather"); ("city", CString "New York");
                          ("units", CString "metric")]));
    mkWidget "pomodoro-1" "pomodoro" 6 0 3 2 false
      (Some (list_to_map [("title", CString "Pomodoro"); ("workDuration", CNumber 25);
                          ("breakDuration", CNumber 5)]));
    mkWidget "todo-1" "todo" 9 0 3 2 false
      (Some (list_to_map [("title", CString "Todo List")]));
    mkWidget "calendar-1" "calendar" 0 2 4 3 false
      (Some (list_to_map [("title", CString "Calendar")]));
    mkWidget "notes-1" "notes" 4 2 4 3 false
      (Some (list_to_map [("title", CString "Notes")]));
    mkWidget "stocks-1" "stocks" 8 2 4 3 false
      (Some (list_to_map [("title", CString "Stocks"); ("symbol", CString "AAPL")]));
    mkWidget "links-1" "links" 0 5 6 2 false
      (Some (list_to_map [("title", CString "Quick Links")]));
    mkWidget "quotes-1" "quotes" 6 5 3 2 false
      (Some (list_to_map [("title", CString "Quotes")]));
    mkWidget "system-1" "system" 9 5 3 2 false
      (Some (list_to_map [("title", CString "System")])) ].

(** Source: [StateManager.getDefaultState], state.js, line 24. *)
Definition getDefaultState : AppState :=
  mkState (mkGrid 12 60 8) getDefaultWidgets "system"
    (list_to_map [("autoSave", true); ("animations", true); ("notifications", true)])
    "1.0.0" None.

(** [emit(event, data)] on the manager alone: the call is recorded.
    What the callbacks registered by the engine and by the application
    do at this point is in [Page].
    Source: [StateManager.emit], state.js, line 189. *)
Definition emit (e : Event) (m : StateManager) : StateManager :=
  mkManager (state m) (emitted m ++ [e]).

(** [`${type}-${counter}`]. *)
Definition widgetId (type : string) (counter : nat) : string :=
  type +:+ "-" +:+ Js.int_to_string (Z.of_nat counter).

(** [existingIds.includes(id)]. *)
Definition includes (id : string) (existingIds : list string) : bool :=
  bool_decide (id ∈ existingIds).

(** The [while] loop of [generateWidgetId]; [fuel] bounds the number of
    iterations ([generateWidgetId_fuel] shows that the bound used below
    is never reached with the test still true). *)
Fixpoint generateWidgetId_loop (fuel : nat) (existingIds : list string)
    (type : string) (counter : nat) : string :=
  let id := widgetId type counter in
  match fuel with
  | O => id
  | S fuel' =>
      if includes id existingIds
      then generateWidgetId_loop fuel' existingIds type (S counter)
      else id
  end.

(** Source: [StateManager.generateWidgetId], state.js, line 440. *)
Definition generateWidgetId (type : string) (s : AppState) : string :=
  let existingIds := wid <$> widgets s in
  generateWidgetId_loop (length existingIds) existingIds type 1.

(** [`${x}-${y}`], the key of a cell in the occupancy map. *)
Definition cellKey (x y : Z) : string :=
  Js.int_to_string x +:+ "-" +:+ Js.int_to_string y.

(** The occupancy map of [findEmptyPosition]: every value stored is
    [true], so the map is the set of its keys. *)
Definition gridMapOf (ws : list Widget) : gset string :=
  foldl (fun gridMap widget =>
           foldl (fun gridMap x =>
                    foldl (fun gridMap y => {[ cellKey x y ]} ∪ gridMap)
                          gridMap (seqZ (wy widget) (wh widget)))
                 gridMap (seqZ (wx widget) (ww widget)))
        ∅ ws.

(** The two inner loops of [findEmptyPosition]: is the
    [width] x [height] area at [(x, y)] free? *)
Definition canPlace (gridMap : gset string) (width height x y : Z) : bool :=
  Js.for_flag (Z.to_nat width) 0 (fun dx =>
    Js.for_flag (Z.to_nat height) 0 (fun dy =>
      negb (bool_decide (cellKey (x + dx) (y + dy) ∈ gridMap)))).

(** Source: [StateManager.findEmptyPosition], state.js, line 397. *)
Definition findEmptyPosition (width height : Z) (s : AppState) : Z * Z :=
  let gridMap := gridMapOf (widgets s) in
  match
    Js.for_return 100 0 (fun y =>
      Js.for_return (Z.to_nat (cols (grid s) - width + 1)) 0 (fun x =>
        if canPlace gridMap width height x y then Some (x, y) else None))
  with
  | Some position => position
  | None =>
      let maxY := Js.math_max0 ((fun w => wy w + wh w) <$> widgets s) in
      (0, maxY)
  end.

(** [addWidget(widgetData)]: the id comes first in the object literal
    and the spread of [widgetData] after it, so an id of the caller
    replaces the generated one; [x], [y], [w], [h] and [minimized] come
    after the spread.
    Source: [StateManager.addWidget], state.js, line 207. *)
Definition addWidget (widgetData : WidgetData) (m : StateManager) : Widget * StateManager :=
  let s := state m in
  let widget :=
    mkWidget (default (generateWidgetId (dtype widgetData) s) (did widgetData))
             (dtype widgetData)
             (Js.or_default (dx widgetData) 0)
             (Js.or_default (dy widgetData) 0)
             (Js.or_default (dw widgetData) 3)
             (Js.or_default (dh widgetData) 2)
             false
             (dconfig widgetData) in
  let widget :=
    if negb (Js.truthy_num (dx widgetData)) && negb (Js.truthy_num (dy widgetData))
    then let position := findEmptyPosition (ww widget) (wh widget) s in
         set_position position.1 position.2 widget
    else widget in
  (widget, emit (widget_added widget)
                (mkManager (set_widgets (widgets s ++ [widget]) s) (emitted m))).

(** [{ ...oldWidget, ...updates }]. *)
Definition mergeUpdates (oldWidget : Widget) (updates : Updates) : Widget :=
  mkWidget (wid oldWidget) (wtype oldWidget)
           (default (wx oldWidget) (ux updates))
           (default (wy oldWidget) (uy updates))
           (default (ww oldWidget) (uw updates))
           (default (wh oldWidget) (uh updates))
           (default (wminimized oldWidget) (uminimized updates))
           (match uconfig updates with
            | Some c => Some c
            | None => wconfig oldWidget
            end).

(** [this.state.widgets.findIndex(w => w.id === widgetId)], with the
    element found. *)
Definition findIndex (widgetId : string) (ws : list Widget) : option (nat * Widget) :=
  list_find (fun w => wid w = widgetId) ws.

(** Source: [StateManager.updateWidget], state.js, line 235. *)
Definition updateWidget (widgetId : string) (updates : Updates) (m : StateManager)
    : bool * StateManager :=
  let s := state m in
  match findIndex widgetId (widgets s) with
  | None => (false, m)
  | Some (widgetIndex, oldWidget) =>
      let newWidget := mergeUpdates oldWidget updates in
      (true,
       emit (widget_updated newWidget oldWidget updates)
            (mkManager (set_widgets (<[widgetIndex := newWidget]> (widgets s)) s)
                       (emitted m)))
  end.

(** Source: [StateManager.moveWidget], state.js, line 256. *)
Definition moveWidget (widgetId : string) (position : Updates) (m : StateManager)
    : bool * StateManager :=
  updateWidget widgetId position m.

(** Source: [StateManager.resizeWidget], state.js, line 265. *)
Definition resizeWidget (widgetId : string) (size : Updates) (m : StateManager)
    : bool * StateManager :=
  updateWidget widgetId size m.

(** Source: [StateManager.removeWidget], state.js, line 273. *)
Definition removeWidget (widgetId : string) (m : StateManager) : bool * StateManager :=
  let s := state m in
  match findIndex widgetId (widgets s) with
  | None => (false, m)
  | Some (widgetIndex, widget) =>
      (true,
       emit (widget_removed widget)
            (mkManager (set_widgets (delete widgetIndex (widgets s)) s) (emitted m)))
  end.

(** Source: [StateManager.duplicateWidget], state.js, line 287. *)
Definition duplicateWidget (widgetId : string) (m : StateManager)
    : option Widget * StateManager :=
  let s := state m in
  match findIndex widgetId (widgets s) with
  | None => (None, m)
  | Some (_, widget) =>
      let duplicate :=
        mkWidget (generateWidgetId (wtype widget) s) (wtype widget)
                 (wx widget + ww widget) (wy widget) (ww widget) (wh widget)
                 (wminimized widget) (wconfig widget) in
      let duplicate :=
        if cols (grid s) <? wx duplicate + ww duplicate
        then let position := findEmptyPosition (ww duplicate) (wh duplicate) s in
             set_position position.1 position.2 duplicate
        else duplicate in
      (Some duplicate,
       emit (widget_added duplicate)
            (mkManager (set_widgets (widgets s ++ [duplicate]) s) (emitted m)))
  end.

(** Source: [StateManager.setTheme], state.js, line 314. *)
Definition setTheme (newTheme : string) (m : StateManager) : StateManager :=
  let s := state m in
  let oldTheme := theme s in
  emit (theme_changed newTheme oldTheme)
       (mkManager (mkState (grid s) (widgets s) newTheme (settings s) (version s)
                           (exportedAt s))
                  (emitted m)).

(** [{ ...this.state.settings, ...settings }]: the new flags win.
    Source: [StateManager.updateSettings], state.js, line 324. *)
Definition updateSettings (newSettings : Settings) (m : StateManager) : StateManager :=
  let s := state m in
  let oldSettings := settings s in
  let merged : Settings := newSettings ∪ oldSettings in
  emit (settings_updated merged oldSettings)
       (mkManager (mkState (grid s) (widgets s) (theme s) merged (version s)
                           (exportedAt s))
                  (emitted m)).

(** [{ ...widget, id: widget.id || this.generateWidgetId(widget.type) }],
    evaluated while [this.state] is still the state before the import. *)
Definition backfillId (s : AppState) (widget : LayoutWidget) : Widget :=
  let id :=
    match lid widget with
    | Some id => if Js.truthy_str id then id else generateWidgetId (ltype widget) s
    | None => generateWidgetId (ltype widget) s
    end in
  mkWidget id (ltype widget) (lx widget) (ly widget) (lw widget) (lh widget)
           (lminimized widget) (lconfig widget).

(** The callback of [layoutData.widgets.map(...)] on one element:
    [None] is the [TypeError] of reading [widget.id] of [null] or
    [undefined]. *)
Definition backfillElement (s : AppState) (element : LayoutElement) : option Widget :=
  match element with
  | ElementNullish => None
  | ElementWidget widget => Some (backfillId s widget)
  end.

(** The body of the [try] block of [importLayout]: [inl] is the message
    of the error thrown, [inr] the manager when the block completes.
    The [map] throws at the first element it cannot read, before
    [this.state] is assigned. *)
Definition importLayout_try (layoutData : LayoutData) (m : StateManager)
    : ErrorMessage + StateManager :=
  match l_widgets layoutData with
  | WidgetsArray ws =>
      let s := state m in
      let backup := s in
      match mapM (backfillElement s) ws with
      | None => inl TypeErrorText
      | Some widgets =>
          let imported :=
            mkState (default (grid s) (l_grid layoutData))
                    widgets
                    (default (theme s) (l_theme layoutData))
                    (default (settings s) (l_settings layoutData))
                    (default (version s) (l_version layoutData))
                    (match l_exportedAt layoutData with
                     | Some t => Some t
                     | None => exportedAt s
                     end) in
          inr (emit (layout_imported layoutData backup) (mkManager imported (emitted m)))
      end
  | WidgetsMissing | WidgetsNonArray _ =>
      inl (MessageText "Invalid layout data: missing widgets array")
  end.

(** Source: [StateManager.importLayout], state.js, line 334. *)
Definition importLayout (layoutData : LayoutData) (m : StateManager)
    : bool * StateManager :=
  match importLayout_try layoutData m with
  | inr m' => (true, m')
  | inl error => (false, emit (import_error error) m)
  end.

(** A widget record as an element of [layout.widgets]. *)
Definition asLayoutWidget (w : Widget) : LayoutWidget :=
  mkLayoutWidget (Some (wid w)) (wtype w) (wx w) (wy w) (ww w) (wh w)
                 (wminimized w) (wconfig w).

(** [exportLayout()]; [now] is [new Date().toISOString()].
    Source: [StateManager.exportLayout], state.js, line 367. *)
Definition exportLayout (now : string) (m : StateManager) : LayoutData * StateManager :=
  let s := state m in
  let layout :=
    mkLayout (Some (grid s)) (WidgetsArray (ElementWidget ∘ asLayoutWidget <$> widgets s))
             (Some (theme s)) (Some (settings s)) (Some (version s)) (Some now) in
  (layout, emit (layout_exported layout) m).

(** [resetToDefault()]; the write to local storage that follows
    belongs to the persistent store.
    Source: [StateManager.resetToDefault], state.js, line 384. *)
Definition resetToDefault (m : StateManager) : StateManager :=
  let backup := state m in
  emit (layout_reset backup) (mkManager getDefaultState (emitted m)).

End State.


(** ** The grid engine *)

(** A candidate placement [{x, y, w, h}]. *)
Record Rect : Type := mkRect {
  rx : Z;
  ry : Z;
  rw : Z;
  rh : Z
}.

Definition rectOf (w : Widget) : Rect := mkRect (wx w) (wy w) (ww w) (wh w).

(** The eight resize handles, [resize-handle-n] to [resize-handle-sw]. *)
Inductive Handle : Type :=
| handle_n | handle_s | handle_e | handle_w
| handle_ne | handle_nw | handle_se | handle_sw.

Record DragData : Type := mkDragData {
  drag_widgetId : string;
  drag_widget : Widget;
  drag_originalPosition : Z * Z
}.

(** The grid lines of a widget's element, as [getComputedStyle]
    reports them: the two halves of [gridColumn] and of [gridRow]. *)
Record ElementStyle : Type := mkStyle {
  gridColumnStart : string;
  gridColumnEnd : string;
  gridRowStart : string;
  gridRowEnd : string
}.

(** [resize_element] is the style of the widget's element:
    [updateWidgetPosition] writes the grid lines of the record there,
    [previewResize] overwrites them, and [endResize] reads them back. *)
Record ResizeData : Type := mkResizeData {
  resize_widgetId : string;
  resize_widget : Widget;
  resize_handle : Handle;
  resize_originalSize : Z * Z;
  resize_originalPosition : Z * Z;
  resize_element : ElementStyle
}.

(** The [finalPos] that [endResize] computes. *)
Record FinalPos : Type := mkFinalPos {
  final_x : Js.Num;
  final_y : Js.Num;
  final_w : Js.Num;
  final_h : Js.Num
}.

Record GridManager : Type := mkGridManager {
  manager : StateManager;
  gridSettings : GridSettings;
  isDragging : bool;
  isResizing : bool;
  dragData : option DragData;
  resizeData : option ResizeData
}.

(** What a pointer-up leaves: the engine, or, where [endResize] hands
    [updateWidget] a [finalPos] with a [NaN] in it, that call, with the
    engine once the gesture is over and the manager as it was before the
    call: the record that the manager holds after it has [NaN] where the
    records of this embedding have a number. *)
Inductive Released : Type :=
| Settled (g : GridManager)
| WroteNaN (widgetId : string) (finalPos : FinalPos) (g : GridManager).

Definition engineOf (r : Released) : GridManager :=
  match r with
  | Settled g | WroteNaN _ _ g => g
  end.

Inductive Key : Type :=
| ArrowLeft | ArrowRight | ArrowUp | ArrowDown | Delete | Backspace | OtherKey.

(** What a pointer-down lands on. *)
Inductive PointerTarget : Type :=
| OnResizeHandle (widgetId : string) (handle : Handle)
| OnWidgetHeader (widgetId : string)
| OnWidgetItself (widgetId : string)
| OnWidgetContent (widgetId : string)
| OutsideWidgets.

Definition positionUpdate (x y : Z) : Updates :=
  mkUpdates (Some x) (Some y) None None None None.

Definition rectUpdate (r : Rect) : Updates :=
  mkUpdates (Some (rx r)) (Some (ry r)) (Some (rw r)) (Some (rh r)) None None.

Module Grid.

Definition with_manager (m : StateManager) (g : GridManager) : GridManager :=
  mkGridManager m (gridSettings g) (isDragging g) (isResizing g)
                (dragData g) (resizeData g).

(** [this.state.getState().widgets.find(w => w.id === widgetId)]. *)
Definition findWidget (widgetId : string) (g : GridManager) : option Widget :=
  snd <$> State.findIndex widgetId (widgets (state (manager g))).

(** Source: [GridManager.rectsIntersect], grid.js (src/unnamed/part_002), line 1261. *)
Definition rectsIntersect (x1 y1 w1 h1 x2 y2 w2 h2 : Z) : bool :=
  negb ((x1 + w1 <=? x2) || (x2 + w2 <=? x1) || (y1 + h1 <=? y2) || (y2 + h2 <=? y1)).

(** [widgets.some(widget => this.rectsIntersect(...))]. *)
Definition hasCollision (others : list Widget) (x y w h : Z) : bool :=
  existsb (fun widget =>
             rectsIntersect x y w h (wx widget) (wy widget) (ww widget) (wh widget))
          others.

(** The [while (attempts < maxAttempts)] loop of [validatePosition];
    [remaining] is [maxAttempts - attempts]. *)
Fixpoint pushDown (remaining : nat) (others : list Widget) (x y w h : Z) : Z * Z :=
  match remaining with
  | O => (x, y)
  | S remaining' =>
      if hasCollision others x y w h
      then pushDown remaining' others x (y + 1) w h
      else (x, y)
  end.

Definition maxAttempts : nat := 100.

(** [this.state.getState().widgets.filter(widget => widget.id !== excludeId)]. *)
Definition othersThan (excludeId : option string) (ws : list Widget) : list Widget :=
  filter (fun widget => Some (wid widget) ≠ excludeId) ws.

(** Source: [GridManager.validatePosition], grid.js (src/unnamed/part_002), line 1196. *)
Definition validatePosition (x y w h : Z) (excludeId : option string) (g : GridManager)
    : Z * Z :=
  let x := Z.max 0 (Z.min x (cols (gridSettings g) - w)) in
  let y := Z.max 0 y in
  let others := othersThan excludeId (widgets (state (manager g))) in
  pushDown maxAttempts others x y w h.

(** Source: [GridManager.validateResize], grid.js (src/unnamed/part_002), line 1237. *)
Definition validateResize (x y w h : Z) (excludeId : option string) (g : GridManager)
    : Rect :=
  let w := Z.max 1 w in
  let h := Z.max 1 h in
  let x := Z.max 0 (Z.min x (cols (gridSettings g) - w)) in
  let y := Z.max 0 y in
  mkRect x y w h.

(** [screenToGrid]: [qx] and [qy] are the rounded quotients
    [Math.round(relativeX / (cellWidth + gap))] and
    [Math.round(relativeY / (cellHeight + gap))].
    Source: [GridManager.screenToGrid], grid.js (src/unnamed/part_002), line 1163. *)
Definition screenToGrid (qx qy : Z) : Z * Z := (Z.max 0 qx, Z.max 0 qy).

(** Source: [GridManager.startDrag], grid.js (src/unnamed/part_002), line 685. *)
Definition startDrag (widgetId : string) (g : GridManager) : GridManager :=
  match findWidget widgetId g with
  | None => g
  | Some widgetData =>
      mkGridManager (manager g) (gridSettings g) true (isResizing g)
        (Some (mkDragData widgetId widgetData (wx widgetData, wy widgetData)))
        (resizeData g)
  end.

(** [updateDrag]: the cell at which the ghost is shown; neither the
    engine's fields nor the state change.
    Source: [GridManager.updateDrag], grid.js (src/unnamed/part_002), line 720. *)
Definition updateDrag (qx qy : Z) (g : GridManager) : option (Z * Z) :=
  match dragData g with
  | None => None
  | Some d =>
      let gridPos := screenToGrid qx qy in
      Some (validatePosition gridPos.1 gridPos.2 (ww (drag_widget d)) (wh (drag_widget d))
                             (Some (drag_widgetId d)) g)
  end.

(** Source: [GridManager.endDrag], grid.js (src/unnamed/part_002), line 748. *)
Definition endDrag (qx qy : Z) (g : GridManager) : GridManager :=
  match dragData g with
  | None => g
  | Some d =>
      let widgetId := drag_widgetId d in
      let originalPosition := drag_originalPosition d in
      let gridPos := screenToGrid qx qy in
      let finalPos :=
        validatePosition gridPos.1 gridPos.2 (ww (drag_widget d)) (wh (drag_widget d))
                         (Some widgetId) g in
      let m :=
        if negb (finalPos.1 =? originalPosition.1) || negb (finalPos.2 =? originalPosition.2)
        then (State.moveWidget widgetId (positionUpdate finalPos.1 finalPos.2) (manager g)).2
        else manager g in
      mkGridManager m (gridSettings g) false (isResizing g) None (resizeData g)
  end.

(** [gridColumn = `${x + 1} / span ${w}`] and
    [gridRow = `${y + 1} / span ${h}`].
    Source: [GridManager.updateWidgetPosition] and
    [GridManager.previewResize], grid.js (src/unnamed/part_002),
    lines 1130 and 1298. *)
Definition gridLines (x y w h : Z) : ElementStyle :=
  mkStyle (Js.int_to_string (x + 1)) ("span " +:+ Js.int_to_string w)
          (Js.int_to_string (y + 1)) ("span " +:+ Js.int_to_string h).

Definition updateWidgetPosition (widget : Widget) : ElementStyle :=
  gridLines (wx widget) (wy widget) (ww widget) (wh widget).

Definition previewResize (size : Rect) : ElementStyle :=
  gridLines (rx size) (ry size) (rw size) (rh size).

(** [startResize]; the element is the one of the widget, with the grid
    lines that [renderWidget] or [updateWidgetElement] gave it.
    Source: [GridManager.startResize], grid.js (src/unnamed/part_002), line 794. *)
Definition startResize (widgetId : string) (handle : Handle) (g : GridManager)
    : GridManager :=
  match findWidget widgetId g with
  | None => g
  | Some widgetData =>
      mkGridManager (manager g) (gridSettings g) (isDragging g) true (dragData g)
        (Some (mkResizeData widgetId widgetData handle
                            (ww widgetData, wh widgetData)
                            (wx widgetData, wy widgetData)
                            (updateWidgetPosition widgetData)))
  end.

(** The [switch (handle)] of [updateResize]: the new position and size
    from the originals and the pointer delta in grid cells. *)
Definition applyHandle (handle : Handle) (originalPosition originalSize : Z * Z)
    (deltaGridX deltaGridY : Z) : Rect :=
  let '(x0, y0) := originalPosition in
  let '(w0, h0) := originalSize in
  match handle with
  | handle_e => mkRect x0 y0 (Z.max 1 (w0 + deltaGridX)) h0
  | handle_w => mkRect (Z.max 0 (x0 + deltaGridX)) y0 (Z.max 1 (w0 - deltaGridX)) h0
  | handle_s => mkRect x0 y0 w0 (Z.max 1 (h0 + deltaGridY))
  | handle_n => mkRect x0 (Z.max 0 (y0 + deltaGridY)) w0 (Z.max 1 (h0 - deltaGridY))
  | handle_se => mkRect x0 y0 (Z.max 1 (w0 + deltaGridX)) (Z.max 1 (h0 + deltaGridY))
  | handle_sw =>
      mkRect (Z.max 0 (x0 + deltaGridX)) y0
             (Z.max 1 (w0 - deltaGridX)) (Z.max 1 (h0 + deltaGridY))
  | handle_ne =>
      mkRect x0 (Z.max 0 (y0 + deltaGridY))
             (Z.max 1 (w0 + deltaGridX)) (Z.max 1 (h0 - deltaGridY))
  | handle_nw =>
      mkRect (Z.max 0 (x0 + deltaGridX)) (Z.max 0 (y0 + deltaGridY))
             (Z.max 1 (w0 - deltaGridX)) (Z.max 1 (h0 - deltaGridY))
  end.

(** The placement [updateResize] validates and previews;
    [deltaGridX] and [deltaGridY] are the rounded pointer deltas. *)
Definition resizeCandidate (r : ResizeData) (deltaGridX deltaGridY : Z) (g : GridManager)
    : Rect :=
  let c := applyHandle (resize_handle r) (resize_originalPosition r)
                       (resize_originalSize r) deltaGridX deltaGridY in
  validateResize (rx c) (ry c) (rw c) (rh c) (Some (resize_widgetId r)) g.

(** Source: [GridManager.updateResize], grid.js (src/unnamed/part_002), line 825. *)
Definition updateResize (deltaGridX deltaGridY : Z) (g : GridManager) : GridManager :=
  match resizeData g with
  | None => g
  | Some r =>
      let validated := resizeCandidate r deltaGridX deltaGridY g in
      mkGridManager (manager g) (gridSettings g) (isDragging g) (isResizing g) (dragData g)
        (Some (mkResizeData (resize_widgetId r) (resize_widget r) (resize_handle r)
                            (resize_originalSize r) (resize_originalPosition r)
                            (previewResize validated)))
  end.

(** The [finalPos] of [endResize], parsed from the computed style of
    the element. *)
Definition finalPosOf (computedStyle : ElementStyle) : FinalPos :=
  let gridColumn := gridColumnStart computedStyle in
  let gridRow := gridRowStart computedStyle in
  let gridColumnEnd := gridColumnEnd computedStyle in
  let gridRowEnd := gridRowEnd computedStyle in
  mkFinalPos (Js.minus (Js.parseInt gridColumn) (Js.Finite 1))
             (Js.minus (Js.parseInt gridRow) (Js.Finite 1))
             (Js.minus (Js.parseInt gridColumnEnd) (Js.parseInt gridColumn))
             (Js.minus (Js.parseInt gridRowEnd) (Js.parseInt gridRow)).

(** Source: [GridManager.endResize], grid.js (src/unnamed/part_002), line 888. *)
Definition endResize (g : GridManager) : Released :=
  match resizeData g with
  | None => Settled g
  | Some r =>
      let widgetId := resize_widgetId r in
      let originalPosition := resize_originalPosition r in
      let originalSize := resize_originalSize r in
      let finalPos := finalPosOf (resize_element r) in
      let hasChanged :=
        Js.differs (final_x finalPos) originalPosition.1
        || Js.differs (final_y finalPos) originalPosition.2
        || Js.differs (final_w finalPos) originalSize.1
        || Js.differs (final_h finalPos) originalSize.2 in
      let over m := mkGridManager m (gridSettings g) (isDragging g) false (dragData g) None in
      if hasChanged
      then match finalPos with
           | mkFinalPos (Js.Finite x) (Js.Finite y) (Js.Finite w) (Js.Finite h) =>
               Settled (over (State.updateWidget widgetId (rectUpdate (mkRect x y w h))
                                                 (manager g)).2)
           | _ => WroteNaN widgetId finalPos (over (manager g))
           end
      else Settled (over (manager g))
  end.

(** Source: [GridManager.handlePointerDown], grid.js (src/unnamed/part_002), line 640. *)
Definition handlePointerDown (target : PointerTarget) (g : GridManager) : GridManager :=
  if isDragging g || isResizing g then g
  else match target with
       | OnResizeHandle widgetId handle => startResize widgetId handle g
       | OnWidgetHeader widgetId | OnWidgetItself widgetId => startDrag widgetId g
       | OnWidgetContent _ | OutsideWidgets => g
       end.

(** [handlePointerMove]; the four numbers are the rounded quotients of
    the pointer position ([updateDrag]) and of the pointer delta
    ([updateResize]).
    Source: [GridManager.handlePointerMove], grid.js (src/unnamed/part_002), line 660. *)
Definition handlePointerMove (qx qy deltaGridX deltaGridY : Z) (g : GridManager)
    : GridManager :=
  if isDragging g then g
  else if isResizing g then updateResize deltaGridX deltaGridY g
  else g.

(** Source: [GridManager.handlePointerUp], grid.js (src/unnamed/part_002), line 672. *)
Definition handlePointerUp (qx qy : Z) (g : GridManager) : Released :=
  if isDragging g then Settled (endDrag qx qy g)
  else if isResizing g then endResize g
  else Settled g.

Definition step : Z := 1.

(** The [keydown] listener; [focused] is the id of the widget that
    holds the focus, [modifier] is [e.ctrlKey || e.metaKey].
    Source: [GridManager.setupKeyboardHandlers], grid.js (src/unnamed/part_002), line 548. *)
Definition handleKeydown (focused : option string) (key : Key) (modifier shift : bool)
    (g : GridManager) : GridManager :=
  match focused with
  | None => g
  | Some widgetId =>
      match findWidget widgetId g with
      | None => g
      | Some widget =>
          let m := manager g in
          let resize u := with_manager (State.resizeWidget widgetId u m).2 g in
          let move u := with_manager (State.moveWidget widgetId u m).2 g in
          let only_x v := mkUpdates (Some v) None None None None None in
          let only_y v := mkUpdates None (Some v) None None None None in
          let only_w v := mkUpdates None None (Some v) None None None in
          let only_h v := mkUpdates None None None (Some v) None None in
          match key with
          | ArrowLeft =>
              if modifier
              then if 1 <? ww widget then resize (only_w (ww widget - step)) else g
              else if 0 <? wx widget then move (only_x (wx widget - step)) else g
          | ArrowRight =>
              if modifier
              then if wx widget + ww widget + step <=? cols (gridSettings g)
                   then resize (only_w (ww widget + step)) else g
              else if wx widget + ww widget <? cols (gridSettings g)
                   then move (only_x (wx widget + step)) else g
          | ArrowUp =>
              if modifier
              then if 1 <? wh widget then resize (only_h (wh widget - step)) else g
              else if 0 <? wy widget then move (only_y (wy widget - step)) else g
          | ArrowDown =>
              if modifier
              then resize (only_h (wh widget + step))
              else move (only_y (wy widget + step))
          | Delete | Backspace =>
              if shift then with_manager (State.removeWidget widgetId m).2 g else g
          | OtherKey => g
          end
      end
  end.

(** A whole drag gesture: pointer-down on the header of the widget,
    then pointer-up at the cell quotients [(qx, qy)]; the engine it
    leaves. *)
Definition dragGesture (widgetId : string) (qx qy : Z) (g : GridManager) : GridManager :=
  engineOf (handlePointerUp qx qy (handlePointerDown (OnWidgetHeader widgetId) g)).

(** A whole resize gesture: pointer-down on a handle, one pointer-move
    per delta of the list, pointer-up. *)
Definition resizeGesture (widgetId : string) (handle : Handle) (deltas : list (Z * Z))
    (g : GridManager) : Released :=
  handlePointerUp 0 0
    (foldl (fun g d => handlePointerMove 0 0 d.1 d.2 g)
           (handlePointerDown (OnResizeHandle widgetId handle) g) deltas).

(** The engine after [init()], idle, on a given state manager. *)
Definition init (m : StateManager) : GridManager :=
  mkGridManager m (grid (state m)) false false None None.

End Grid.

(** ** The page: the manager with the callbacks of the repository *)

(** The engine on its state manager, and the instances of the widget
    modules: [instances] gives, for the id of a widget whose module has
    loaded ([element._widgetInstance]), the [config] the instance
    holds. *)
Record Page : Type := mkPage {
  engine : GridManager;
  instances : gmap string Config
}.

Module Page.

(** [createWidget(initialConfig)]: the instance starts from
    [{ ...defaultConfig, ...initialConfig }].
    Source: [createWidget], widgets/clock.js, line 6; the other widget
    modules do the same with defaults of their own. *)
Definition createWidget (defaultConfig : Config) (initialConfig : option Config) : Config :=
  default ∅ initialConfig ∪ defaultConfig.

(** [setConfig(newConfig)]: [config = { ...config, ...newConfig }].
    Source: [setConfig], widgets/clock.js, line 287; the other widget
    modules merge in the same way. *)
Definition setConfig (newConfig : option Config) (config : Config) : Config :=
  default ∅ newConfig ∪ config.

(** [state.updateWidget(widgetId, updates)] on the page. The manager
    writes the record and emits [widget-updated]; inside that [emit]
    the engine's callback runs [updateWidgetElement(widget)], which
    hands the record's [config] to the instance; [setConfig] ends with
    [emitConfigChange()], whose event reaches the listener of the
    application, and that listener calls
    [state.updateWidget(widgetId, { config })] with the [config] of the
    instance: the same function again, before the first call has
    returned. Nothing in the chain ends it, so the calls nest until the
    call stack is full: [stack] is the number of nested calls for which
    there is room, and the call that does not fit raises a [RangeError]
    inside the event dispatch, which reports it and returns.
    An element, and so an instance, exists for a record that has a
    [config] ([renderWidget] reads [widget.config.title]).
    Source: [StateManager.updateWidget], state.js, line 235;
    [GridManager.init] and [GridManager.updateWidgetElement], grid.js
    (src/unnamed/part_002), lines 511 and 1103; [setConfig] and
    [emitConfigChange], widgets/clock.js, lines 287 and 276; the
    [widget-config-changed] listener, app.js (src/unnamed/part_001),
    line 183. *)
Fixpoint updateWidget (stack : nat) (widgetId : string) (updates : Updates) (p : Page)
    : bool * Page :=
  let m := manager (engine p) in
  match State.findIndex widgetId (widgets (state m)) with
  | None => (false, p)
  | Some (_, oldWidget) =>
      let widget := State.mergeUpdates oldWidget updates in
      let p := mkPage (Grid.with_manager (State.updateWidget widgetId updates m).2 (engine p))
                      (instances p) in
      match instances p !! wid widget with
      | None => (true, p)
      | Some config =>
          let config := setConfig (wconfig widget) config in
          let p := mkPage (engine p) (<[wid widget := config]> (instances p)) in
          match stack with
          | O => (true, p)
          | S stack =>
              let newConfig := mkUpdates None None None None None (Some config) in
              (true, (updateWidget stack (wid widget) newConfig p).2)
          end
      end
  end.

(** Source: [StateManager.moveWidget], state.js, line 256. *)
Definition moveWidget (stack : nat) (widgetId : string) (position : Updates) (p : Page)
    : bool * Page :=
  updateWidget stack widgetId position p.

(** [endDrag] on the page: as [Grid.endDrag], the [moveWidget] being the
    one of the page.
    Source: [GridManager.endDrag], grid.js (src/unnamed/part_002), line 748. *)
Definition endDrag (stack : nat) (qx qy : Z) (p : Page) : Page :=
  let g := engine p in
  match dragData g with
  | None => p
  | Some d =>
      let widgetId := drag_widgetId d in
      let originalPosition := drag_originalPosition d in
      let gridPos := Grid.screenToGrid qx qy in
      let finalPos :=
        Grid.validatePosition gridPos.1 gridPos.2 (ww (drag_widget d)) (wh (drag_widget d))
                              (Some widgetId) g in
      let p :=
        if negb (finalPos.1 =? originalPosition.1) || negb (finalPos.2 =? originalPosition.2)
        then (moveWidget stack widgetId (positionUpdate finalPos.1 finalPos.2) p).2
        else p in
      mkPage (mkGridManager (manager (engine p)) (gridSettings g) false (isResizing g) None
                            (resizeData g))
             (instances p)
  end.

(** A whole drag gesture on the page, from an engine at rest:
    pointer-down on the header of the widget, then the pointer-up, which
    ends the drag. *)
Definition dragGesture (stack : nat) (widgetId : string) (qx qy : Z) (p : Page) : Page :=
  endDrag stack qx qy
          (mkPage (Grid.handlePointerDown (OnWidgetHeader widgetId) (engine p)) (instances p)).

End Page.

(** ** Layout predicates *)

(** The cell [(x, y)] lies in the rectangle of the widget. *)
Definition occupies (w : Widget) (x y : Z) : Prop :=
  wx w ≤ x < wx w + ww w ∧ wy w ≤ y < wy w + wh w.

Definition occupied (ws : list Widget) (x y : Z) : Prop :=
  ∃ w, w ∈ ws ∧ occupies w x y.

(** No cell of the [width] x [height] rectangle at [(x, y)] is occupied. *)
Definition areaFree (ws : list Widget) (width height : Z) (p : Z * Z) : Prop :=
  ∀ dx dy, 0 ≤ dx < width → 0 ≤ dy < height → ¬ occupied ws (p.1 + dx) (p.2 + dy).

(** The origins the search visits: rows [0] to [99], columns [0] to
    [columns - width]. *)
Definition scanned (columns width : Z) (p : Z * Z) : Prop :=
  0 ≤ p.2 < 100 ∧ 0 ≤ p.1 ≤ columns - width.

(** Row-major order on origins [(x, y)]: rows first, then columns. *)
Definition rowMajorBefore (p q : Z * Z) : Prop :=
  p.2 < q.2 ∨ (p.2 = q.2 ∧ p.1 < q.1).

(** The bottom of the tallest stack: the largest [y + h], [0] on an
    empty list. *)
Definition tallestStack (ws : list Widget) : Z :=
  foldr Z.max 0 ((fun w => wy w + wh w) <$> ws).

(** The empty-position search as the specification words it: the
    row-major first scanned origin whose area is free, or the fallback
    below the tallest stack when no scanned origin is free. *)
Definition firstFit (s : AppState) (width height : Z) (p : Z * Z) : Prop :=
  (scanned (cols (grid s)) width p ∧ areaFree (widgets s) width height p ∧
   ∀ q, scanned (cols (grid s)) width q → rowMajorBefore q p →
        ¬ areaFree (widgets s) width height q)
  ∨ ((∀ q, scanned (cols (grid s)) width q → ¬ areaFree (widgets s) width height q) ∧
     p = (0, tallestStack (widgets s))).

(** Two lists of widgets cover the same cells. *)
Definition sameOccupancy (ws ws' : list Widget) : Prop :=
  ∀ x y, occupied ws x y ↔ occupied ws' x y.

Definition positiveSize (w : Widget) : Prop := 1 ≤ ww w ∧ 1 ≤ wh w.

(** The rectangles of two widget records overlap. *)
Definition overlap (a b : Widget) : bool :=
  Grid.rectsIntersect (wx a) (wy a) (ww a) (wh a) (wx b) (wy b) (ww b) (wh b).

(** No two records of the list overlap. *)
Definition NoOverlap (ws : list Widget) : Prop :=
  ∀ i j a b, ws !! i = Some a → ws !! j = Some b → i ≠ j → overlap a b = false.

(** The bounds of a widget record on a grid of [columns] columns. *)
Definition InBounds (columns : Z) (w : Widget) : Prop :=
  0 ≤ wx w ∧ wx w + ww w ≤ columns ∧ 1 ≤ ww w ∧ 1 ≤ wh w.

Definition UniqueIds (ws : list Widget) : Prop := NoDup (wid <$> ws).

(** ** Fixtures *)

(** A state with no widget on the default 12-column grid. *)
Definition emptyGrid : StateManager :=
  mkManager (set_widgets [] State.getDefaultState) [].

(** [addWidget({ type, w: 3, h: 2 })]. *)
Definition threeByTwo (type : string) : WidgetData :=
  mkData None type None None (Some 3) (Some 2) None None.

(** ** Adding a widget: the caller's fields *)

(** A field the caller left out, or gave as [0]: the two are one to
    [||] and to [!]. *)
Definition missingOrZero (o : option Z) : Prop := o = None ∨ o = Some 0.

(** [addWidget] as a filler of defaults that keeps every field of the
    caller and searches exactly when neither [x] nor [y] is given. *)
Definition keepsSuppliedFields (widgetData : WidgetData) (m : StateManager) : Prop :=
  let w := (State.addWidget widgetData m).1 in
  wtype w = dtype widgetData ∧ wconfig w = dconfig widgetData ∧
  ww w = default 3 (dw widgetData) ∧ wh w = default 2 (dh widgetData) ∧
  wminimized w = default false (dminimized widgetData) ∧
  (wx w, wy w) =
    match dx widgetData, dy widgetData with
    | None, None => State.findEmptyPosition (ww w) (wh w) (state m)
    | ox, oy => (default 0 ox, default 0 oy)
    end.

(** ** Sessions *)

(** A call on the public interface of the state manager. *)
Inductive Call : Type :=
| CallAddWidget (widgetData : WidgetData)
| CallUpdateWidget (widgetId : string) (updates : Updates)
| CallMoveWidget (widgetId : string) (position : Updates)
| CallResizeWidget (widgetId : string) (size : Updates)
| CallRemoveWidget (widgetId : string)
| CallDuplicateWidget (widgetId : string)
| CallSetTheme (theme : string)
| CallUpdateSettings (settings : Settings)
| CallImportLayout (layoutData : LayoutData)
| CallExportLayout (now : string)
| CallResetToDefault.

Definition call (c : Call) (m : StateManager) : StateManager :=
  match c with
  | CallAddWidget widgetData => (State.addWidget widgetData m).2
  | CallUpdateWidget widgetId updates => (State.updateWidget widgetId updates m).2
  | CallMoveWidget widgetId position => (State.moveWidget widgetId position m).2
  | CallResizeWidget widgetId size => (State.resizeWidget widgetId size m).2
  | CallRemoveWidget widgetId => (State.removeWidget widgetId m).2
  | CallDuplicateWidget widgetId => (State.duplicateWidget widgetId m).2
  | CallSetTheme theme => State.setTheme theme m
  | CallUpdateSettings settings => State.updateSettings settings m
  | CallImportLayout layoutData => (State.importLayout layoutData m).2
  | CallExportLayout now => (State.exportLayout now m).2
  | CallResetToDefault => State.resetToDefault m
  end.

(** A session: the calls in the order they are issued. *)
Definition session (calls : list Call) (m : StateManager) : StateManager :=
  foldl (fun m c => call c m) m calls.

(** The manager a session starts from, on the built-in layout. *)
Definition freshManager : StateManager := mkManager State.getDefaultState [].

(** [id] is [`${type}-${n}`] for the smallest [n ≥ 1] for which that
    string is not among [ids]. *)
Definition smallestFreeId (type : string) (ids : list string) (id : string) : Prop :=
  ∃ n : nat, (1 ≤ n)%nat ∧ id = State.widgetId type n ∧ (id ∉ ids) ∧
             ∀ j : nat, (1 ≤ j < n)%nat → State.widgetId type j ∈ ids.

(** The record [addWidget] appends carries an id that is the smallest
    free one for its type. *)
Definition addsFreshId (widgetData : WidgetData) (m : StateManager) : Prop :=
  smallestFreeId (dtype widgetData) (wid <$> widgets (state m))
                 (wid (State.addWidget widgetData m).1).

(** The calls that leave the choice of ids to the manager: no id in the
    argument of [addWidget], and no import. *)
Definition managerAssignsIds (c : Call) : Prop :=
  match c with
  | CallAddWidget widgetData => did widgetData = None
  | CallImportLayout _ => False
  | _ => True
  end.



(** [importLayout({ widgets: "not-a-list" })]. *)
Definition notAList : LayoutData :=
  mkLayout None (WidgetsNonArray (JsString "not-a-list")) None None None None.

(** [importLayout({ widgets: [null] })]. *)
Definition nullInList : LayoutData :=
  mkLayout None (WidgetsArray [ElementNullish]) None None None None.


(** [{ ...state, ...layoutData }] without the widget list: each field of
    the layout replaces that of the state, and a field the layout lacks
    stays. *)
Definition spreadOver (layoutData : LayoutData) (s : AppState) (ws : list Widget)
    : AppState :=
  mkState (default (grid s) (l_grid layoutData)) ws
          (default (theme s) (l_theme layoutData))
          (default (settings s) (l_settings layoutData))
          (default (version s) (l_version layoutData))
          (match l_exportedAt layoutData with
           | Some t => Some t
           | None => exportedAt s
           end).

(** The imported record for an element of [layoutData.widgets]: the
    element, with an id of its own. *)
Definition backfilled (element : LayoutWidget) (w : Widget) : Prop :=
  Js.truthy_str (wid w) = true
  ∧ (∀ id, lid element = Some id → Js.truthy_str id = true → wid w = id)
  ∧ wtype w = ltype element ∧ wx w = lx element ∧ wy w = ly element
  ∧ ww w = lw element ∧ wh w = lh element
  ∧ wminimized w = lminimized element ∧ wconfig w = lconfig element.

(** The same for an element of the array, which is then a widget
    object. *)
Definition backfilledElement (element : LayoutElement) (w : Widget) : Prop :=
  match element with
  | ElementWidget widget => backfilled widget w
  | ElementNullish => False
  end.

(** ** Gestures *)

(** Two widgets of the collision scenario: A, 3x2 at (0,0), and B, 3x2
    at (3,0), on a 12-column grid. *)
Definition twoWidgets : StateManager :=
  mkManager
    (set_widgets [ mkWidget "a-1" "a" 0 0 3 2 false None;
                   mkWidget "b-1" "b" 3 0 3 2 false None ]
                 State.getDefaultState)
    [].

(** The position of a widget in the canonical list. *)
Definition positionOf (widgetId : string) (g : GridManager) : option (Z * Z) :=
  (fun w => (wx w, wy w)) <$> Grid.findWidget widgetId g.

(** The candidate of [validatePosition] after the clamps. *)
Definition clampedX (columns x w : Z) : Z := Z.max 0 (Z.min x (columns - w)).
Definition clampedY (y : Z) : Z := Z.max 0 y.

(** The candidate rectangle meets the rectangle of some widget of the
    list: it is not entirely to the left of it, to its right, above it
    or below it. *)
Definition collides (others : list Widget) (x y w h : Z) : Prop :=
  ∃ o, o ∈ others ∧
       ¬ (x + w ≤ wx o ∨ wx o + ww o ≤ x ∨ y + h ≤ wy o ∨ wy o + wh o ≤ y).

(** A commit on one of the two validated paths: an [addWidget] that is
    placed by the empty-position search, or a drag gesture. *)
Inductive Commit : Type :=
| AutoPlace (widgetData : WidgetData)
| DragTo (widgetId : string) (qx qy : Z).

Definition commit (c : Commit) (g : GridManager) : GridManager :=
  match c with
  | AutoPlace widgetData => Grid.with_manager (State.addWidget widgetData (manager g)).2 g
  | DragTo widgetId qx qy => Grid.dragGesture widgetId qx qy g
  end.

Definition commits (l : list Commit) (g : GridManager) : GridManager :=
  foldl (fun g c => commit c g) g l.

(** The argument of an auto-placed [addWidget]: no position, the id
    left to the manager, and a size that is positive where given. *)
Definition autoPlaced (widgetData : WidgetData) : Prop :=
  did widgetData = None ∧ dx widgetData = None ∧ dy widgetData = None
  ∧ (∀ v, dw widgetData = Some v → 1 ≤ v) ∧ (∀ v, dh widgetData = Some v → 1 ≤ v).

Definition onValidatedPath (c : Commit) : Prop :=
  match c with
  | AutoPlace widgetData => autoPlaced widgetData
  | DragTo _ _ _ => True
  end.

(** Within the 100 attempts of the validator there is a row at which the
    dragged widget meets no other widget. *)
Definition settlesWithinAttempts (widgetId : string) (qx qy : Z) (g : GridManager) : Prop :=
  match Grid.findWidget widgetId g with
  | None => True
  | Some widget =>
      let x0 := clampedX (cols (gridSettings g)) (Z.max 0 qx) (ww widget) in
      let y0 := clampedY (Z.max 0 qy) in
      ∃ k, 0 ≤ k ≤ 100 ∧
           ¬ collides (Grid.othersThan (Some widgetId) (widgets (state (manager g))))
                      x0 (y0 + k) (ww widget) (wh widget)
  end.

Definition settles (c : Commit) (g : GridManager) : Prop :=
  match c with
  | AutoPlace _ => True
  | DragTo widgetId qx qy => settlesWithinAttempts widgetId qx qy g
  end.

(** Every commit of the path, at the state it is issued in, is on a
    validated path and settles. *)
Fixpoint validatedPath (l : list Commit) (g : GridManager) : Prop :=
  match l with
  | [] => True
  | c :: l' => onValidatedPath c ∧ settles c g ∧ validatedPath l' (commit c g)
  end.

(** No gesture is in progress. *)
Definition idle (g : GridManager) : Prop := isDragging g = false ∧ isResizing g = false.

(** A layout at rest: distinct ids, positive sizes, no overlap. *)
Definition Tidy (ws : list Widget) : Prop :=
  UniqueIds ws ∧ Forall positiveSize ws ∧ NoOverlap ws.

(** A stack of 200 rows in columns 0 to 2, a 3x2 widget beside it, and
    the drag of the latter onto the former. *)
Definition ontoTallStack : list Commit :=
  [ AutoPlace (mkData None "notes" None None (Some 3) (Some 200) None None);
    AutoPlace (mkData None "clock" None None (Some 3) (Some 2) None None);
    DragTo "clock-1" 0 0 ].

(** ** Resize previews *)

(** What [startResize] records for a gesture on the widget. *)
Definition resizeDataOf (widget : Widget) (handle : Handle) : ResizeData :=
  mkResizeData (wid widget) widget handle (ww widget, wh widget) (wx widget, wy widget)
               (Grid.updateWidgetPosition widget).

(** The placement previewed for a pointer delta of [(deltaGridX,
    deltaGridY)] cells. *)
Definition preview (widget : Widget) (handle : Handle) (deltaGridX deltaGridY : Z)
    (g : GridManager) : Rect :=
  Grid.resizeCandidate (resizeDataOf widget handle) deltaGridX deltaGridY g.

(** The edges a handle moves. *)
Definition movesWest (handle : Handle) : bool :=
  match handle with handle_w | handle_nw | handle_sw => true | _ => false end.
Definition movesNorth (handle : Handle) : bool :=
  match handle with handle_n | handle_ne | handle_nw => true | _ => false end.

(** The edge opposite to the one a west or north handle moves stays
    where it was. *)
Definition keepsOppositeEdge (widget : Widget) (handle : Handle) (deltaGridX deltaGridY : Z)
    (g : GridManager) : Prop :=
  let v := preview widget handle deltaGridX deltaGridY g in
  (movesWest handle = true → rx v + rw v = wx widget + ww widget)
  ∧ (movesNorth handle = true → ry v + rh v = wy widget + wh widget).

(** The clock of the built-in layout, 3x2 at (0,0). *)
Definition theClock : Widget :=
  mkWidget "clock-1" "clock" 0 0 3 2 false None.

(** ** Drag frames *)

(** The cell a drag of the widget that ends at the quotients [(qx, qy)]
    validates, and whether it differs from the cell the widget is at. *)
Definition finalPos (widget : Widget) (widgetId : string) (qx qy : Z) (g : GridManager)
    : Z * Z :=
  Grid.validatePosition (Z.max 0 qx) (Z.max 0 qy) (ww widget) (wh widget) (Some widgetId) g.

Definition moved (widget : Widget) (p : Z * Z) : bool :=
  negb (p.1 =? wx widget) || negb (p.2 =? wy widget).

(** ** The page after load *)

(** [defaultConfig] of the clock module.
    Source: [createWidget], widgets/clock.js, line 7. *)
Definition clockDefaultConfig : Config :=
  list_to_map [("title", CString "Clock"); ("format", CString "24h");
               ("showAnalog", CBool false); ("timezone", CString "local");
               ("showDate", CBool true); ("showSeconds", CBool true)].

(** The config of the clock of the built-in layout, as stored. *)
Definition clockStoredConfig : Config :=
  list_to_map [("title", CString "Clock"); ("format", CString "24h");
               ("showAnalog", CBool false); ("timezone", CString "local")].

(** The page on the built-in layout once the module of the clock has
    loaded: [loadWidgetContent] has created the instance from the
    stored config of ["clock-1"]. *)
Definition clockLoaded : Page :=
  mkPage (Grid.init freshManager)
         {[ "clock-1" := Page.createWidget clockDefaultConfig (Some clockStoredConfig) ]}.

(** [{ config }], the argument of the application's [updateWidget]. *)
Definition configUpdate (config : Config) : Updates :=
  mkUpdates None None None None None (Some config).

(** Two engines that differ at most in their manager. *)
Definition sameEngine (g g' : GridManager) : Prop :=
  gridSettings g' = gridSettings g ∧ isDragging g' = isDragging g
  ∧ isResizing g' = isResizing g ∧ dragData g' = dragData g
  ∧ resizeData g' = resizeData g.

(** The config of a widget of the page. *)
Definition configOf (widgetId : string) (p : Page) : option (option Config) :=
  wconfig <$> Grid.findWidget widgetId (engine p).

(** The [widget-updated] events of a log. *)
Definition isWidgetUpdated (e : Event) : bool :=
  match e with
  | widget_updated _ _ _ => true
  | _ => false
  end.

(** * Properties *)

(** ** Number printing and loops *)

Module JsFacts.

Lemma no_dash_string_of_uint d : Js.no_dash (NilEmpty.string_of_uint d) = true.
Proof. induction d; simpl; auto. Qed.

Lemma string_of_uint_shape d :
  ∃ c r, NilZero.string_of_uint d = String c r ∧ c ≠ "-"%char ∧ Js.no_dash r = true.
Proof.
  destruct d; simpl; eexists _, _; (split; [reflexivity|]);
    (split; [discriminate | try reflexivity; apply no_dash_string_of_uint]).
Qed.

(** A printed integer is one character, possibly the sign, followed by
    digits. *)
Lemma int_to_string_shape z :
  ∃ c r, Js.int_to_string z = String c r ∧ Js.no_dash r = true.
Proof.
  unfold Js.int_to_string. destruct (Z.to_int z) as [d|d]; simpl.
  - destruct (string_of_uint_shape d) as (c & r & -> & _ & Hr). eauto.
  - destruct (string_of_uint_shape d) as (c & r & E & Hc & Hr).
    exists "-"%char, (NilZero.string_of_uint d). split; [done|].
    rewrite E. simpl. rewrite Hr. by destruct (Ascii.eqb_spec c "-").
Qed.

Lemma int_to_string_nonempty z : Js.int_to_string z ≠ "".
Proof. destruct (int_to_string_shape z) as (c & r & -> & _). discriminate. Qed.

Lemma split_at_dash r1 r2 t1 t2 :
  Js.no_dash r1 = true → Js.no_dash r2 = true →
  r1 +:+ String "-" t1 = r2 +:+ String "-" t2 → r1 = r2 ∧ t1 = t2.
Proof.
  revert r2. induction r1 as [|c r1 IH]; intros [|c' r2]; simpl; intros H1 H2 E.
  - by inversion E.
  - inversion E; subst. by rewrite Ascii.eqb_refl in H2.
  - inversion E; subst. by rewrite Ascii.eqb_refl in H1.
  - inversion E; subst. apply andb_true_iff in H1 as [_ H1], H2 as [_ H2].
    by destruct (IH r2 H1 H2) as [-> ->].
Qed.

Lemma int_to_string_inj z z' : Js.int_to_string z = Js.int_to_string z' → z = z'.
Proof.
  unfold Js.int_to_string. intros E. apply DecimalZ.to_int_inj.
  assert (H : ∀ z, NilZero.int_of_string (NilZero.string_of_int (Z.to_int z))
                   = Some (Z.to_int z)).
  { intros [|p|p]; apply NilZero.isi; simpl; try discriminate;
      intros [= H]; by apply DecimalPos.Unsigned.to_uint_nonnil in H. }
  apply (f_equal NilZero.int_of_string) in E. rewrite !H in E. congruence.
Qed.

Lemma for_return_Some {A} n i (body : Z → option A) r :
  Js.for_return n i body = Some r ↔
  ∃ k, i ≤ k < i + Z.of_nat n ∧ body k = Some r ∧ ∀ j, i ≤ j < k → body j = None.
Proof.
  revert i. induction n as [|n IH]; intros i; simpl.
  - split; [done | intros (k & ? & _); lia].
  - destruct (body i) as [r'|] eqn:E.
    + split.
      * intros [= ->]. exists i. split; [lia|]. split; [done | intros; lia].
      * intros (k & Hk & Hr & Hbefore).
        destruct (decide (k = i)) as [->|Hne]; [congruence|].
        rewrite Hbefore in E by lia. done.
    + rewrite IH. split.
      * intros (k & Hk & Hr & Hbefore). exists k. split; [lia|]. split; [done|].
        intros j Hj. destruct (decide (j = i)) as [->|]; [done | apply Hbefore; lia].
      * intros (k & Hk & Hr & Hbefore). exists k.
        assert (k ≠ i) by congruence.
        split; [lia|]. split; [done | intros; apply Hbefore; lia].
Qed.

Lemma for_return_None {A} n i (body : Z → option A) :
  Js.for_return n i body = None ↔ ∀ k, i ≤ k < i + Z.of_nat n → body k = None.
Proof.
  revert i. induction n as [|n IH]; intros i; simpl.
  - split; [intros; lia | done].
  - destruct (body i) eqn:E.
    + split; [done | intros H; rewrite H in E by lia; done].
    + rewrite IH. split; intros H k Hk.
      * destruct (decide (k = i)) as [->|]; [done | apply H; lia].
      * apply H; lia.
Qed.

Lemma for_flag_true n i test :
  Js.for_flag n i test = true ↔ ∀ k, i ≤ k < i + Z.of_nat n → test k = true.
Proof.
  revert i. induction n as [|n IH]; intros i; simpl.
  - split; [intros; lia | done].
  - destruct (test i) eqn:E.
    + rewrite IH. split; intros H k Hk.
      * destruct (decide (k = i)) as [->|]; [done | apply H; lia].
      * apply H; lia.
    + split; [done | intros H; rewrite H in E by lia; done].
Qed.

Lemma math_max0_ge l v : v ∈ l → v ≤ Js.math_max0 l.
Proof.
  induction 1 as [|? ? ? ? IH]; simpl; [lia | etrans; [apply IH | lia]].
Qed.

Lemma math_max0_nonneg l : 0 ≤ Js.math_max0 l.
Proof. induction l; simpl; lia. Qed.

Lemma math_max0_cases l : Js.math_max0 l = 0 ∨ Js.math_max0 l ∈ l.
Proof.
  induction l as [|a l IH]; simpl; [by left|].
  fold (Js.math_max0 l).
  destruct (Z.max_spec a (Js.math_max0 l)) as [[_ ->]|[_ ->]].
  - destruct IH as [IH|IH]; [by left | right; by constructor].
  - right. constructor.
Qed.

End JsFacts.

(** ** The empty-position search *)

Module SearchFacts.

Lemma cellKey_inj x y x' y' : State.cellKey x y = State.cellKey x' y' → x = x' ∧ y = y'.
Proof.
  unfold State.cellKey. intros E.
  destruct (JsFacts.int_to_string_shape x) as (c & r & Ex & Hr).
  destruct (JsFacts.int_to_string_shape x') as (c' & r' & Ex' & Hr').
  rewrite Ex, Ex' in E. simpl in E. inversion E as [[Ec E']]. subst c'.
  apply JsFacts.split_at_dash in E' as [-> E']; [|done..].
  split; apply JsFacts.int_to_string_inj; congruence.
Qed.

Lemma elem_of_column (gridMap : gset string) x ys key :
  key ∈ foldl (fun gridMap y => {[ State.cellKey x y ]} ∪ gridMap) gridMap ys ↔
  key ∈ gridMap ∨ ∃ y, y ∈ ys ∧ key = State.cellKey x y.
Proof.
  revert gridMap. induction ys as [|y ys IH]; intros gridMap; simpl.
  - split; [by left | intros [?|(y & Hy & _)]; [done | by apply elem_of_nil in Hy]].
  - rewrite IH, elem_of_union, elem_of_singleton. split.
    + intros [[->|?]|(y' & Hy' & ->)].
      * right. exists y. split; [constructor | done].
      * by left.
      * right. exists y'. split; [by constructor | done].
    + intros [?|(y' & Hy' & ->)]; [left; by right|].
      apply elem_of_cons in Hy' as [->|Hy']; [left; by left | right; eauto].
Qed.

Lemma elem_of_block (gridMap : gset string) xs ys key :
  key ∈ foldl (fun gridMap x =>
                 foldl (fun gridMap y => {[ State.cellKey x y ]} ∪ gridMap) gridMap ys)
              gridMap xs ↔
  key ∈ gridMap ∨ ∃ x y, x ∈ xs ∧ y ∈ ys ∧ key = State.cellKey x y.
Proof.
  revert gridMap. induction xs as [|x xs IH]; intros gridMap; simpl.
  - split; [by left | intros [?|(x & y & Hx & _)]; [done | by apply elem_of_nil in Hx]].
  - rewrite IH, elem_of_column. split.
    + intros [[?|(y & Hy & ->)]|(x' & y & Hx' & Hy & ->)].
      * by left.
      * right. exists x, y. split; [constructor | done].
      * right. exists x', y. split; [by constructor | done].
    + intros [?|(x' & y & Hx' & Hy & ->)]; [left; by left|].
      apply elem_of_cons in Hx' as [->|Hx']; [left; right; eauto | right; eauto].
Qed.

Lemma elem_of_gridMapOf_gen (gridMap : gset string) ws key :
  key ∈ foldl (fun gridMap widget =>
                 foldl (fun gridMap x =>
                          foldl (fun gridMap y => {[ State.cellKey x y ]} ∪ gridMap)
                                gridMap (seqZ (wy widget) (wh widget)))
                       gridMap (seqZ (wx widget) (ww widget)))
              gridMap ws ↔
  key ∈ gridMap ∨ ∃ x y, occupied ws x y ∧ key = State.cellKey x y.
Proof.
  revert gridMap. induction ws as [|w ws IH]; intros gridMap; simpl.
  - split; [by left | intros [?|(x & y & (w & Hw & _) & _)]; [done|]].
    by apply elem_of_nil in Hw.
  - rewrite IH, elem_of_block. split.
    + intros [[?|(x & y & Hx & Hy & ->)]|(x & y & (w' & Hw' & Hocc) & ->)].
      * by left.
      * right. exists x, y. split; [|done]. exists w. split; [constructor|].
        apply elem_of_seqZ in Hx, Hy. split; lia.
      * right. exists x, y. split; [|done]. exists w'. split; [by constructor | done].
    + intros [?|(x & y & (w' & Hw' & Hocc) & ->)]; [left; by left|].
      apply elem_of_cons in Hw' as [->|Hw'].
      * left. right. exists x, y. destruct Hocc as [Hx Hy].
        split; [apply elem_of_seqZ; lia|]. split; [apply elem_of_seqZ; lia | done].
      * right. exists x, y. split; [|done]. by exists w'.
Qed.

(** The occupancy map holds exactly the keys of the occupied cells. *)
Lemma elem_of_gridMapOf ws x y :
  State.cellKey x y ∈ State.gridMapOf ws ↔ occupied ws x y.
Proof.
  unfold State.gridMapOf. rewrite elem_of_gridMapOf_gen. split.
  - intros [H|(x' & y' & Hocc & E)]; [by apply not_elem_of_empty in H|].
    by apply cellKey_inj in E as [-> ->].
  - intros Hocc. right. eauto.
Qed.

Lemma canPlace_true ws width height x y :
  State.canPlace (State.gridMapOf ws) width height x y = true ↔
  areaFree ws width height (x, y).
Proof.
  unfold State.canPlace, areaFree. rewrite JsFacts.for_flag_true. simpl. split.
  - intros H dx dy Hdx Hdy Hocc.
    specialize (H dx ltac:(lia)). rewrite JsFacts.for_flag_true in H.
    specialize (H dy ltac:(lia)). apply negb_true_iff, bool_decide_eq_false in H.
    by apply H, elem_of_gridMapOf.
  - intros H dx Hdx. apply JsFacts.for_flag_true. intros dy Hdy.
    apply negb_true_iff, bool_decide_eq_false. rewrite elem_of_gridMapOf.
    apply H; lia.
Qed.

Lemma canPlace_false ws width height x y :
  State.canPlace (State.gridMapOf ws) width height x y = false ↔
  ¬ areaFree ws width height (x, y).
Proof. rewrite <- canPlace_true. by destruct (State.canPlace _ _ _ _ _). Qed.

(** The search meets its specification: [findEmptyPosition] is the
    first fit in row-major order, or the fallback. *)
Lemma findEmptyPosition_firstFit width height s :
  firstFit s width height (State.findEmptyPosition width height s).
Proof.
  unfold State.findEmptyPosition, firstFit.
  destruct (Js.for_return 100 _ _) as [[x y]|] eqn:E.
  - left. apply JsFacts.for_return_Some in E as (y' & Hy' & Erow & Hrows).
    apply JsFacts.for_return_Some in Erow as (x' & Hx' & Ecell & Hcells).
    destruct (State.canPlace _ _ _ _ _) eqn:Hfree in Ecell; [|done].
    injection Ecell as <- <-. apply canPlace_true in Hfree.
    split; [split; simpl; lia|]. split; [done|].
    intros [qx qy] [Hqy Hqx] [Hlt|[Heq Hlt]]; simpl in *.
    + specialize (Hrows qy ltac:(lia)). cbv beta in Hrows.
      rewrite JsFacts.for_return_None in Hrows.
      specialize (Hrows qx ltac:(lia)). simpl in Hrows.
      destruct (State.canPlace _ _ _ _ _) eqn:Hq in Hrows; [done|].
      by apply canPlace_false in Hq.
    + subst qy. specialize (Hcells qx ltac:(lia)). simpl in Hcells.
      destruct (State.canPlace _ _ _ _ _) eqn:Hq in Hcells; [done|].
      by apply canPlace_false in Hq.
  - right. split; [|done].
    intros [qx qy] [Hqy Hqx]; simpl in Hqy, Hqx.
    pose proof (proj1 (JsFacts.for_return_None _ _ _) E qy ltac:(lia)) as Erow.
    cbv beta in Erow.
    pose proof (proj1 (JsFacts.for_return_None _ _ _) Erow qx ltac:(lia)) as Ecell.
    clear E Erow. rename Ecell into E.
    simpl in E. destruct (State.canPlace _ _ _ _ _) eqn:Hq in E; [done|].
    by apply canPlace_false in Hq.
Qed.

End SearchFacts.

Module FirstFitFacts.

(** At most one origin is the first fit of a state. *)
Lemma firstFit_unique s width height p q :
  firstFit s width height p → firstFit s width height q → p = q.
Proof.
  intros [(Hp & Hfp & Hminp)|[Hnone ->]] [(Hq & Hfq & Hminq)|[Hnone' ->]].
  - destruct p as [px py], q as [qx qy].
    assert (¬ rowMajorBefore (qx, qy) (px, py)) as H1 by (intros H; by apply (Hminp _ Hq H)).
    assert (¬ rowMajorBefore (px, py) (qx, qy)) as H2 by (intros H; by apply (Hminq _ Hp H)).
    unfold rowMajorBefore in H1, H2. simpl in H1, H2. f_equal; lia.
  - by destruct (Hnone' _ Hp).
  - by destruct (Hnone _ Hq).
  - done.
Qed.

Lemma areaFree_same ws ws' width height p :
  sameOccupancy ws ws' → areaFree ws width height p ↔ areaFree ws' width height p.
Proof.
  intros Hsame. unfold areaFree.
  split; intros H dx dy Hdx Hdy Hocc; apply (H dx dy Hdx Hdy), Hsame, Hocc.
Qed.

Lemma tallestStack_le ws ws' :
  Forall positiveSize ws → (∀ x y, occupied ws x y → occupied ws' x y) →
  tallestStack ws ≤ tallestStack ws'.
Proof.
  intros Hpos Hsub. unfold tallestStack.
  change (foldr Z.max 0) with Js.math_max0.
  destruct (JsFacts.math_max0_cases ((fun w => wy w + wh w) <$> ws)) as [->|Hin].
  { apply JsFacts.math_max0_nonneg. }
  apply list_elem_of_fmap in Hin as (w & -> & Hw).
  rewrite Forall_forall in Hpos. destruct (Hpos w Hw) as [Hww Hwh].
  destruct (Hsub (wx w) (wy w + wh w - 1)) as (w' & Hw' & [_ Hrow]).
  { exists w. split; [done|]. unfold occupies. lia. }
  etrans; [|apply JsFacts.math_max0_ge, list_elem_of_fmap; exists w'; eauto]. lia.
Qed.

Lemma tallestStack_same ws ws' :
  Forall positiveSize ws → Forall positiveSize ws' → sameOccupancy ws ws' →
  tallestStack ws = tallestStack ws'.
Proof.
  intros H H' Hsame. apply Z.le_antisymm; apply tallestStack_le; try done;
    intros x y; apply Hsame.
Qed.

Lemma firstFit_same s s' width height p :
  cols (grid s') = cols (grid s) →
  sameOccupancy (widgets s) (widgets s') →
  Forall positiveSize (widgets s) → Forall positiveSize (widgets s') →
  firstFit s' width height p → firstFit s width height p.
Proof.
  intros Hcols Hsame Hpos Hpos'. unfold firstFit. rewrite Hcols.
  rewrite (tallestStack_same _ _ Hpos Hpos' Hsame).
  intros [(Hp & Hfree & Hmin)|[Hnone ->]]; [left | right].
  - split; [done|]. split; [by apply (areaFree_same _ _ _ _ _ Hsame)|].
    intros q Hq Hbefore Hfq. apply (Hmin q Hq Hbefore).
    by apply (areaFree_same _ _ _ _ _ Hsame).
  - split; [|done]. intros q Hq Hfq. apply (Hnone q Hq).
    by apply (areaFree_same _ _ _ _ _ Hsame).
Qed.

End FirstFitFacts.

(** C2. For every widget list and every positive width and height,
    [findEmptyPosition] returns the row-major first origin, among rows 0
    to 99 and columns 0 to [columns - width], whose area holds no
    occupied cell, and falls back to [(0, max (y + h))] when there is
    none; the result depends only on the occupied cells (of records of
    positive size), the columns and the size asked for; three 3x2
    widgets added in turn to an empty 12-column grid land at (0,0),
    (3,0) and (6,0). *)
Theorem findEmptyPosition_first_fit (s : AppState) (width height : Z) :
  0 < width → 0 < height →
  firstFit s width height (State.findEmptyPosition width height s)
  ∧ (∀ s' : AppState,
       cols (grid s') = cols (grid s) →
       sameOccupancy (widgets s) (widgets s') →
       Forall positiveSize (widgets s) → Forall positiveSize (widgets s') →
       State.findEmptyPosition width height s' = State.findEmptyPosition width height s)
  ∧ (let '(a, m1) := State.addWidget (threeByTwo "clock") emptyGrid in
     let '(b, m2) := State.addWidget (threeByTwo "notes") m1 in
     let '(c, _) := State.addWidget (threeByTwo "todo") m2 in
     (wx a, wy a) = (0, 0) ∧ (wx b, wy b) = (3, 0) ∧ (wx c, wy c) = (6, 0)).
Proof.
  intros _ _. split; [apply SearchFacts.findEmptyPosition_firstFit|]. split.
  - intros s' Hcols Hsame Hpos Hpos'.
    apply (FirstFitFacts.firstFit_unique s width height).
    + apply (FirstFitFacts.firstFit_same s s'); try done.
      apply SearchFacts.findEmptyPosition_firstFit.
    + apply SearchFacts.findEmptyPosition_firstFit.
  - vm_compute. done.
Qed.

Lemma findEmptyPosition_first_fit_witness :
  firstFit (state emptyGrid) 3 2 (State.findEmptyPosition 3 2 (state emptyGrid)).
Proof.
  apply (findEmptyPosition_first_fit (state emptyGrid) 3 2); lia.
Defined.

(** ** Adding a widget *)

Module AddFacts.

Lemma or_default_missing o d : missingOrZero o → Js.or_default o d = d.
Proof. by intros [->| ->]. Qed.

Lemma or_default_supplied v d : v ≠ 0 → Js.or_default (Some v) d = v.
Proof. intros Hv. simpl. by destruct (Z.eqb_spec v 0). Qed.

Lemma truthy_num_false o : Js.truthy_num o = false ↔ missingOrZero o.
Proof.
  unfold missingOrZero. destruct o as [v|]; simpl.
  - destruct (Z.eqb_spec v 0) as [->|Hv]; simpl; split; try done; auto.
    intros [?|[= ?]]; done.
  - split; auto.
Qed.

Lemma addWidget_appends d m :
  state (State.addWidget d m).2
  = set_widgets (widgets (state m) ++ [(State.addWidget d m).1]) (state m)
  ∧ emitted (State.addWidget d m).2
    = emitted m ++ [widget_added (State.addWidget d m).1].
Proof. done. Qed.

Lemma addWidget_widgets d m :
  widgets (state (State.addWidget d m).2) = widgets (state m) ++ [(State.addWidget d m).1].
Proof. done. Qed.

Lemma addWidget_id d m :
  wid (State.addWidget d m).1
  = default (State.generateWidgetId (dtype d) (state m)) (did d).
Proof. unfold State.addWidget. simpl. by destruct (_ && _). Qed.

Lemma addWidget_size d m :
  ww (State.addWidget d m).1 = Js.or_default (dw d) 3
  ∧ wh (State.addWidget d m).1 = Js.or_default (dh d) 2.
Proof. unfold State.addWidget. simpl. by destruct (_ && _). Qed.

Lemma addWidget_searched d m :
  missingOrZero (dx d) → missingOrZero (dy d) →
  (wx (State.addWidget d m).1, wy (State.addWidget d m).1)
  = State.findEmptyPosition (ww (State.addWidget d m).1) (wh (State.addWidget d m).1)
                            (state m).
Proof.
  intros Hx Hy. apply truthy_num_false in Hx, Hy.
  unfold State.addWidget. simpl. rewrite Hx, Hy. simpl.
  by destruct (State.findEmptyPosition _ _ _).
Qed.

(** With an [x] or a [y] other than 0 in the argument, the record is at
    the caller's position. *)
Lemma addWidget_placed d m :
  (∃ v, dx d = Some v ∧ v ≠ 0) ∨ (∃ v, dy d = Some v ∧ v ≠ 0) →
  wx (State.addWidget d m).1 = default 0 (dx d)
  ∧ wy (State.addWidget d m).1 = default 0 (dy d).
Proof.
  intros Hgiven.
  assert (negb (Js.truthy_num (dx d)) && negb (Js.truthy_num (dy d)) = false) as Hsearch.
  { apply andb_false_iff.
    destruct Hgiven as [(v & -> & Hv)|(v & -> & Hv)]; [left | right];
      simpl; by destruct (Z.eqb_spec v 0). }
  unfold State.addWidget. simpl. rewrite Hsearch. simpl. split.
  - destruct (dx d) as [v|]; [|done]. simpl. by destruct (Z.eqb_spec v 0) as [->|].
  - destruct (dy d) as [v|]; [|done]. simpl. by destruct (Z.eqb_spec v 0) as [->|].
Qed.

End AddFacts.

(** C6, as stated, fails: a caller that supplies [minimized: true] gets
    a record with [minimized = false]. *)
Lemma addWidget_drops_minimized :
  ¬ keepsSuppliedFields (mkData None "notes" None None None None (Some true) None) emptyGrid.
Proof. unfold keepsSuppliedFields. vm_compute. intros (_ & _ & _ & _ & [=] & _). Qed.

(** C6, amended. [addWidget] appends one record and emits it. The record
    keeps the caller's type, config and (when given) id; [w] and [h] are
    the caller's when given (and not 0), and 3 and 2 when left out;
    [minimized] is [false] whatever the caller gave; the position is
    searched when neither [x] nor [y] is given, and is not when an [x]
    or a [y] other than 0 is given: it is then the caller's, with 0 for
    the coordinate left out. *)
Theorem addWidget_defaults (widgetData : WidgetData) (m : StateManager) :
  let w := (State.addWidget widgetData m).1 in
  let m' := (State.addWidget widgetData m).2 in
  widgets (state m') = widgets (state m) ++ [w]
  ∧ emitted m' = emitted m ++ [widget_added w]
  ∧ wtype w = dtype widgetData ∧ wconfig w = dconfig widgetData
  ∧ (∀ id, did widgetData = Some id → wid w = id)
  ∧ (did widgetData = None → wid w = State.generateWidgetId (dtype widgetData) (state m))
  ∧ (dw widgetData = None → ww w = 3)
  ∧ (∀ v, dw widgetData = Some v → v ≠ 0 → ww w = v)
  ∧ (dh widgetData = None → wh w = 2)
  ∧ (∀ v, dh widgetData = Some v → v ≠ 0 → wh w = v)
  ∧ wminimized w = false
  ∧ (dx widgetData = None → dy widgetData = None →
     (wx w, wy w) = State.findEmptyPosition (ww w) (wh w) (state m))
  ∧ (∀ v, dx widgetData = Some v → v ≠ 0 →
     wx w = v ∧ wy w = default 0 (dy widgetData))
  ∧ (∀ v, dy widgetData = Some v → v ≠ 0 →
     wx w = default 0 (dx widgetData) ∧ wy w = v).
Proof.
  intros w m'. subst w m'.
  destruct (AddFacts.addWidget_size widgetData m) as [Ew Eh].
  split_and!.
  - apply AddFacts.addWidget_widgets.
  - done.
  - unfold State.addWidget. simpl. by destruct (_ && _).
  - unfold State.addWidget. simpl. by destruct (_ && _).
  - intros id Hid. by rewrite AddFacts.addWidget_id, Hid.
  - intros Hid. by rewrite AddFacts.addWidget_id, Hid.
  - intros E. by rewrite Ew, E.
  - intros v E Hv. rewrite Ew, E. by apply AddFacts.or_default_supplied.
  - intros E. by rewrite Eh, E.
  - intros v E Hv. rewrite Eh, E. by apply AddFacts.or_default_supplied.
  - unfold State.addWidget. simpl. by destruct (_ && _).
  - intros Ex Ey. apply AddFacts.addWidget_searched; left; done.
  - intros v E Hv.
    destruct (AddFacts.addWidget_placed widgetData m) as [Hx Hy]; [left; by exists v|].
    by rewrite Hx, Hy, E.
  - intros v E Hv.
    destruct (AddFacts.addWidget_placed widgetData m) as [Hx Hy]; [right; by exists v|].
    by rewrite Hx, Hy, E.
Qed.

(** ** Widget ids *)

Module IdFacts.

Lemma widgetId_inj type n n' : State.widgetId type n = State.widgetId type n' → n = n'.
Proof.
  unfold State.widgetId. intros E.
  apply String.app_inj in E. simpl in E. injection E as E.
  apply JsFacts.int_to_string_inj in E. lia.
Qed.

Lemma widgetId_truthy type n : Js.truthy_str (State.widgetId type n) = true.
Proof. unfold State.widgetId. induction type; done. Qed.

(** The loop stops at a counter [k]: every id before it is taken, and
    the id at [k] is free unless the fuel ran out there. *)
Lemma generateWidgetId_loop_spec fuel ids type c :
  ∃ k : nat, (c ≤ k ≤ c + fuel)%nat
     ∧ State.generateWidgetId_loop fuel ids type c = State.widgetId type k
     ∧ (∀ j : nat, (c ≤ j < k)%nat → State.widgetId type j ∈ ids)
     ∧ ((k < c + fuel)%nat → State.widgetId type k ∉ ids).
Proof.
  revert c. induction fuel as [|fuel IH]; intros c; simpl.
  - exists c. split; [lia|]. split; [done|]. split; intros; lia.
  - unfold State.includes. case_bool_decide as Hin.
    + destruct (IH (S c)) as (k & Hk & E & Hbefore & Hfree).
      exists k. split; [lia|]. split; [done|]. split.
      * intros j Hj. destruct (decide (j = c)) as [->|]; [done | apply Hbefore; lia].
      * intros Hlt. apply Hfree. lia.
    + exists c. split; [lia|]. split; [done|]. split; [intros; lia | done].
Qed.

(** A list cannot hold more distinct ids than it has elements. *)
Lemma taken_bound type (ids : list string) c n :
  (∀ j : nat, (c ≤ j < c + n)%nat → State.widgetId type j ∈ ids) → (n ≤ length ids)%nat.
Proof.
  intros Hall.
  replace n with (length (State.widgetId type <$> seq c n))
    by (by rewrite length_fmap, length_seq).
  apply submseteq_length, NoDup_submseteq.
  - apply NoDup_fmap_2; [intros ? ?; apply widgetId_inj | apply NoDup_seq].
  - intros id Hid. apply list_elem_of_fmap in Hid as (j & -> & Hj).
    apply elem_of_seq in Hj. apply Hall. lia.
Qed.

(** With at least as much fuel as there are ids, the loop ends on the
    smallest free id: the bound is never what stops it. *)
Lemma generateWidgetId_loop_smallest fuel ids type :
  (length ids ≤ fuel)%nat →
  smallestFreeId type ids (State.generateWidgetId_loop fuel ids type 1).
Proof.
  intros Hfuel.
  destruct (generateWidgetId_loop_spec fuel ids type 1) as (k & Hk & E & Hbefore & Hfree).
  exists k. split; [lia|]. split; [done|]. split; [|done].
  rewrite E. intros Hin.
  destruct (decide (k < 1 + fuel)%nat) as [Hlt|Hge]; [by apply Hfree|].
  assert (k = S fuel) as -> by lia.
  pose proof (taken_bound type ids 1 (S fuel)) as Hbound.
  assert (S fuel ≤ length ids)%nat; [|lia].
  apply Hbound. intros j Hj.
  destruct (decide (j = S fuel)) as [->|]; [done | apply Hbefore; lia].
Qed.

Lemma smallestFreeId_unique type ids id id' :
  smallestFreeId type ids id → smallestFreeId type ids id' → id = id'.
Proof.
  intros (n & Hn & -> & Hfree & Hmin) (n' & Hn' & -> & Hfree' & Hmin').
  destruct (lt_eq_lt_dec n n') as [[Hlt| ->]|Hlt]; [|done|].
  - destruct Hfree. apply Hmin'. lia.
  - destruct Hfree'. apply Hmin. lia.
Qed.

(** [generateWidgetId] returns the smallest free id, and more fuel would
    not change its result. *)
Lemma generateWidgetId_smallest type s :
  smallestFreeId type (wid <$> widgets s) (State.generateWidgetId type s).
Proof. by apply generateWidgetId_loop_smallest. Qed.

Lemma generateWidgetId_fuel type s fuel :
  (length (wid <$> widgets s) ≤ fuel)%nat →
  State.generateWidgetId_loop fuel (wid <$> widgets s) type 1 = State.generateWidgetId type s.
Proof.
  intros Hfuel. eapply smallestFreeId_unique.
  - by apply generateWidgetId_loop_smallest.
  - apply generateWidgetId_smallest.
Qed.

Lemma generateWidgetId_fresh type s : State.generateWidgetId type s ∉ wid <$> widgets s.
Proof. by destruct (generateWidgetId_smallest type s) as (n & _ & _ & Hfree & _). Qed.

Lemma generateWidgetId_truthy type s : Js.truthy_str (State.generateWidgetId type s) = true.
Proof.
  destruct (generateWidgetId_smallest type s) as (n & _ & -> & _).
  apply widgetId_truthy.
Qed.

End IdFacts.

(** ** The widget list under the calls of the manager *)

Module StoreFacts.

Lemma findIndex_Some widgetId ws i w :
  State.findIndex widgetId ws = Some (i, w) →
  ws !! i = Some w ∧ wid w = widgetId ∧
  ∀ j w', ws !! j = Some w' → (j < i)%nat → wid w' ≠ widgetId.
Proof. unfold State.findIndex. by rewrite list_find_Some. Qed.

Lemma findIndex_None widgetId ws :
  State.findIndex widgetId ws = None ↔ widgetId ∉ wid <$> ws.
Proof.
  unfold State.findIndex. rewrite list_find_None, Forall_forall, list_elem_of_fmap.
  split.
  - intros H (w & -> & Hw). by apply (H w).
  - intros H w Hw E. apply H. eauto.
Qed.

Lemma wid_mergeUpdates w u : wid (State.mergeUpdates w u) = wid w.
Proof. done. Qed.

Lemma updateWidget_widgets widgetId u m :
  widgets (state (State.updateWidget widgetId u m).2)
  = match State.findIndex widgetId (widgets (state m)) with
    | Some (i, old) => <[i := State.mergeUpdates old u]> (widgets (state m))
    | None => widgets (state m)
    end.
Proof. unfold State.updateWidget. by destruct (State.findIndex _ _) as [[i old]|]. Qed.

Lemma updateWidget_ids widgetId u m :
  wid <$> widgets (state (State.updateWidget widgetId u m).2) = wid <$> widgets (state m).
Proof.
  rewrite updateWidget_widgets.
  destruct (State.findIndex _ _) as [[i old]|] eqn:E; [|done].
  apply findIndex_Some in E as (Hi & _ & _).
  rewrite list_fmap_insert, wid_mergeUpdates. apply list_insert_id.
  by rewrite list_lookup_fmap, Hi.
Qed.

Lemma updateWidget_rest widgetId u m :
  let s := state m in
  let s' := state (State.updateWidget widgetId u m).2 in
  grid s' = grid s ∧ theme s' = theme s ∧ settings s' = settings s ∧
  version s' = version s ∧ exportedAt s' = exportedAt s.
Proof. unfold State.updateWidget. by destruct (State.findIndex _ _) as [[i old]|]. Qed.

Lemma removeWidget_widgets widgetId m :
  widgets (state (State.removeWidget widgetId m).2)
  = match State.findIndex widgetId (widgets (state m)) with
    | Some (i, _) => delete i (widgets (state m))
    | None => widgets (state m)
    end.
Proof. unfold State.removeWidget. by destruct (State.findIndex _ _) as [[i old]|]. Qed.

Lemma duplicateWidget_widgets widgetId m :
  widgets (state (State.duplicateWidget widgetId m).2)
  = match (State.duplicateWidget widgetId m).1 with
    | Some duplicate => widgets (state m) ++ [duplicate]
    | None => widgets (state m)
    end.
Proof. unfold State.duplicateWidget. by destruct (State.findIndex _ _) as [[i old]|]. Qed.

Lemma duplicateWidget_id widgetId m duplicate :
  (State.duplicateWidget widgetId m).1 = Some duplicate →
  wid duplicate = State.generateWidgetId (wtype duplicate) (state m).
Proof.
  unfold State.duplicateWidget. destruct (State.findIndex _ _) as [[i old]|]; [|done].
  simpl. intros [= <-]. by destruct (_ <? _).
Qed.

Lemma UniqueIds_snoc ws w : UniqueIds ws → wid w ∉ wid <$> ws → UniqueIds (ws ++ [w]).
Proof.
  unfold UniqueIds. intros Hnd Hfresh. rewrite fmap_app. apply NoDup_app.
  split; [done|]. split; [|apply NoDup_singleton].
  intros id Hid Hid'. apply list_elem_of_singleton in Hid'. by subst.
Qed.

Lemma UniqueIds_delete ws i : UniqueIds ws → UniqueIds (delete i ws).
Proof.
  unfold UniqueIds. intros Hnd. rewrite list_fmap_delete.
  exact (sublist_NoDup _ _ Hnd (sublist_delete _ i)).
Qed.

Lemma UniqueIds_default : UniqueIds State.getDefaultWidgets.
Proof. unfold UniqueIds. apply (bool_decide_unpack _). by vm_compute. Qed.

(** A call that leaves ids to the manager keeps them distinct. *)
Lemma call_UniqueIds c m :
  managerAssignsIds c → UniqueIds (widgets (state m)) → UniqueIds (widgets (state (call c m))).
Proof.
  intros Hc Hnd. destruct c; cbn [call managerAssignsIds] in *; try done.
  - rewrite AddFacts.addWidget_widgets. apply UniqueIds_snoc; [done|].
    rewrite AddFacts.addWidget_id, Hc. apply IdFacts.generateWidgetId_fresh.
  - unfold UniqueIds. by rewrite updateWidget_ids.
  - unfold UniqueIds, State.moveWidget. by rewrite updateWidget_ids.
  - unfold UniqueIds, State.resizeWidget. by rewrite updateWidget_ids.
  - rewrite removeWidget_widgets.
    destruct (State.findIndex _ _) as [[i old]|]; [by apply UniqueIds_delete | done].
  - rewrite duplicateWidget_widgets.
    destruct (State.duplicateWidget _ _).1 as [duplicate|] eqn:E; [|done].
    apply UniqueIds_snoc; [done|].
    rewrite (duplicateWidget_id _ _ _ E). apply IdFacts.generateWidgetId_fresh.
  - apply UniqueIds_default.
Qed.

Lemma session_UniqueIds calls m :
  Forall managerAssignsIds calls → UniqueIds (widgets (state m)) →
  UniqueIds (widgets (state (session calls m))).
Proof.
  intros Hcalls. revert m. induction Hcalls as [|c calls Hc _ IH]; intros m Hnd; [done|].
  simpl. apply IH. by apply call_UniqueIds.
Qed.

End StoreFacts.

(** C7, as stated, fails: the id of the caller replaces the generated
    one, so [addWidget({ type: "clock", id: "clock-1" })] on the built-in
    layout appends a second record with the id ["clock-1"]. *)
Lemma addWidget_reuses_supplied_id :
  ¬ addsFreshId (mkData (Some "clock-1") "clock" None None None None None None) freshManager.
Proof.
  intros (n & _ & _ & Hfree & _). apply Hfree.
  apply (bool_decide_unpack _). by vm_compute.
Qed.

(** C7, amended. When the argument of [addWidget] carries no id, and for
    every [duplicateWidget], the id of the new record is
    ["<type>-<n>"] with [n] the smallest positive integer for which that
    id is not in the widget list; hence it is not an id of the list, and
    a session of calls that leave ids to the manager (no id passed to
    [addWidget], no import) keeps the ids of the list pairwise
    distinct. *)
Theorem generated_ids_fresh (m : StateManager) :
  (∀ widgetData, did widgetData = None → addsFreshId widgetData m)
  ∧ (∀ widgetId duplicate,
       (State.duplicateWidget widgetId m).1 = Some duplicate →
       smallestFreeId (wtype duplicate) (wid <$> widgets (state m)) (wid duplicate))
  ∧ (∀ calls,
       Forall managerAssignsIds calls → UniqueIds (widgets (state m)) →
       UniqueIds (widgets (state (session calls m)))).
Proof.
  split_and!.
  - intros d Hd. unfold addsFreshId. rewrite AddFacts.addWidget_id, Hd.
    apply IdFacts.generateWidgetId_smallest.
  - intros widgetId duplicate E. rewrite (StoreFacts.duplicateWidget_id _ _ _ E).
    apply IdFacts.generateWidgetId_smallest.
  - intros calls. apply StoreFacts.session_UniqueIds.
Qed.

Lemma generated_ids_fresh_witness :
  addsFreshId (threeByTwo "clock") freshManager
  ∧ UniqueIds (widgets (state (session [CallAddWidget (threeByTwo "clock");
                                          CallDuplicateWidget "clock-2";
                                          CallRemoveWidget "clock-1";
                                          CallAddWidget (threeByTwo "clock")]
                                         freshManager))).
Proof.
  pose proof (generated_ids_fresh freshManager) as (Hadd & _ & Hsession).
  split.
  - by apply Hadd.
  - apply Hsession; [|apply StoreFacts.UniqueIds_default].
    repeat constructor.
Defined.

(** ** Import and export *)

Module LayoutFacts.

Lemma backfillId_backfilled s element : backfilled element (State.backfillId s element).
Proof.
  unfold backfilled, State.backfillId. simpl. split_and!; try done.
  - destruct (lid element) as [id|]; [|apply IdFacts.generateWidgetId_truthy].
    destruct (Js.truthy_str id) eqn:E; [done | apply IdFacts.generateWidgetId_truthy].
  - intros id -> Hid. by rewrite Hid.
Qed.



Lemma backfillElement_Some s element w :
  State.backfillElement s element = Some w → backfilledElement element w.
Proof.
  destruct element as [|widget]; [done|]. intros [= <-]. apply backfillId_backfilled.
Qed.


Lemma backfillElement_None s (ws : list LayoutElement) :
  mapM (State.backfillElement s) ws = None ↔ ElementNullish ∈ ws.
Proof.
  rewrite mapM_None, Exists_exists. split.
  - intros ([|widget] & Hin & E); [done | discriminate].
  - intros Hin. by exists ElementNullish.
Qed.

Lemma importLayout_array (layoutData : LayoutData) m ws imported :
  l_widgets layoutData = WidgetsArray ws →
  mapM (State.backfillElement (state m)) ws = Some imported →
  State.importLayout layoutData m
  = (true, mkManager (spreadOver layoutData (state m) imported)
                     (emitted m ++ [layout_imported layoutData (state m)])).
Proof. intros E Eok. unfold State.importLayout, State.importLayout_try. by rewrite E, Eok. Qed.

Lemma importLayout_nullish (layoutData : LayoutData) m ws :
  l_widgets layoutData = WidgetsArray ws → ElementNullish ∈ ws →
  State.importLayout layoutData m
  = (false, mkManager (state m) (emitted m ++ [import_error TypeErrorText])).
Proof.
  intros E Hin. apply backfillElement_None with (s := state m) in Hin.
  unfold State.importLayout, State.importLayout_try. by rewrite E, Hin.
Qed.

Lemma importLayout_invalid (layoutData : LayoutData) m :
  (∀ ws, l_widgets layoutData ≠ WidgetsArray ws) →
  State.importLayout layoutData m
  = (false, mkManager (state m)
                      (emitted m
                       ++ [import_error
                             (MessageText "Invalid layout data: missing widgets array")])).
Proof.
  intros E. unfold State.importLayout, State.importLayout_try.
  destruct (l_widgets layoutData) as [| |ws]; [done | done | by destruct (E ws)].
Qed.






End LayoutFacts.

(** C8, as stated, fails: [{ widgets: [null] }] has an array for
    [widgets], and [importLayout] returns [false] on it: reading
    [widget.id] of the [null] throws inside the [try] block. *)
Lemma importLayout_rejects_null_element :
  l_widgets nullInList = WidgetsArray [ElementNullish]
  ∧ (State.importLayout nullInList freshManager).1 = false.
Proof. by split. Qed.

(** C8, amended. [importLayout] returns [false], emits [import-error]
    and leaves the state as it was when [data.widgets] is missing or is
    not an array, as for [{ widgets: "not-a-list" }], and also when it
    is an array that holds [null] or [undefined]; when [data.widgets]
    is an array of widget objects it returns [true], the state becomes
    the layout spread over the prior state with, for each element of the
    array in order, a record that is the element with an id of its own
    (the element's id when it has one), and [layout-imported] is emitted
    with the layout and the prior state as backup. *)
Theorem importLayout_validates (layoutData : LayoutData) (m : StateManager) :
  ((∀ ws, l_widgets layoutData ≠ WidgetsArray ws) →
   ∃ message,
     State.importLayout layoutData m
     = (false, mkManager (state m) (emitted m ++ [import_error message])))
  ∧ (∀ ws, l_widgets layoutData = WidgetsArray ws → ElementNullish ∈ ws →
     ∃ message,
       State.importLayout layoutData m
       = (false, mkManager (state m) (emitted m ++ [import_error message])))
  ∧ (∀ ws, l_widgets layoutData = WidgetsArray ws → ElementNullish ∉ ws →
     ∃ imported,
       State.importLayout layoutData m
       = (true, mkManager (spreadOver layoutData (state m) imported)
                          (emitted m ++ [layout_imported layoutData (state m)]))
       ∧ Forall2 backfilledElement ws imported)
  ∧ (State.importLayout notAList m).1 = false
  ∧ state (State.importLayout notAList m).2 = state m
  ∧ emitted (State.importLayout notAList m).2
    = emitted m ++ [import_error (MessageText "Invalid layout data: missing widgets array")].
Proof.
  split_and!; try done.
  - intros Hinvalid. eexists. by apply LayoutFacts.importLayout_invalid.
  - intros ws E Hin. eexists. by apply (LayoutFacts.importLayout_nullish _ _ ws).
  - intros ws E Hobjects.
    destruct (mapM (State.backfillElement (state m)) ws) as [imported|] eqn:Eok;
      [|by apply LayoutFacts.backfillElement_None in Eok].
    exists imported. split; [by apply (LayoutFacts.importLayout_array _ _ ws)|].
    apply mapM_Some in Eok. eapply Forall2_impl; [exact Eok|].
    intros element w. apply LayoutFacts.backfillElement_Some.
Qed.

Lemma importLayout_validates_witness :
  ∃ imported,
    State.importLayout
      (mkLayout None
         (WidgetsArray [ElementWidget (mkLayoutWidget None "notes" 0 7 3 2 false None)])
         (Some "dark") None None None) freshManager
    = (true, mkManager
               (spreadOver
                  (mkLayout None
                     (WidgetsArray
                        [ElementWidget (mkLayoutWidget None "notes" 0 7 3 2 false None)])
                     (Some "dark") None None None)
                  (state freshManager) imported)
               (emitted freshManager
                ++ [layout_imported
                      (mkLayout None
                         (WidgetsArray
                            [ElementWidget (mkLayoutWidget None "notes" 0 7 3 2 false None)])
                         (Some "dark") None None None)
                      (state freshManager)]))
    ∧ Forall2 backfilledElement
              [ElementWidget (mkLayoutWidget None "notes" 0 7 3 2 false None)] imported.
Proof.
  eapply (proj1 (proj2 (proj2 (importLayout_validates _ freshManager)))).
  - reflexivity.
  - intros Hin. apply list_elem_of_singleton in Hin. discriminate.
Defined.




(** ** The collision validator *)

Module CollisionFacts.

Lemma rectsIntersect_true x1 y1 w1 h1 x2 y2 w2 h2 :
  Grid.rectsIntersect x1 y1 w1 h1 x2 y2 w2 h2 = true ↔
  ¬ (x1 + w1 ≤ x2 ∨ x2 + w2 ≤ x1 ∨ y1 + h1 ≤ y2 ∨ y2 + h2 ≤ y1).
Proof.
  unfold Grid.rectsIntersect.
  rewrite negb_true_iff, !orb_false_iff, !Z.leb_gt. lia.
Qed.

Lemma rectsIntersect_sym x1 y1 w1 h1 x2 y2 w2 h2 :
  Grid.rectsIntersect x1 y1 w1 h1 x2 y2 w2 h2 = Grid.rectsIntersect x2 y2 w2 h2 x1 y1 w1 h1.
Proof.
  apply eq_true_iff_eq. rewrite !rectsIntersect_true. lia.
Qed.

Lemma hasCollision_true others x y w h :
  Grid.hasCollision others x y w h = true ↔ collides others x y w h.
Proof.
  unfold Grid.hasCollision, collides. rewrite existsb_exists. split.
  - intros (o & Ho & Hi). exists o. split; [by apply list_elem_of_In|].
    by apply rectsIntersect_true.
  - intros (o & Ho & Hi). exists o. split; [by apply list_elem_of_In|].
    by apply rectsIntersect_true.
Qed.

Lemma hasCollision_false others x y w h :
  Grid.hasCollision others x y w h = false ↔
  ∀ o, o ∈ others →
       Grid.rectsIntersect x y w h (wx o) (wy o) (ww o) (wh o) = false.
Proof.
  unfold Grid.hasCollision. rewrite <- not_true_iff_false, existsb_exists. split.
  - intros H o Ho. apply not_true_iff_false. intros Hi. apply H. exists o.
    split; [by apply list_elem_of_In | done].
  - intros H (o & Ho & Hi). apply list_elem_of_In in Ho. by rewrite (H o Ho) in Hi.
Qed.

Lemma elem_of_othersThan excludeId ws o :
  o ∈ Grid.othersThan excludeId ws ↔ o ∈ ws ∧ Some (wid o) ≠ excludeId.
Proof. unfold Grid.othersThan. rewrite list_elem_of_filter. tauto. Qed.

(** The loop pushes the candidate down [k] rows: every row before the
    last collides, and the last is free unless the attempts ran out. *)
Lemma pushDown_spec remaining others x y w h :
  ∃ k : nat, (k ≤ remaining)%nat
     ∧ Grid.pushDown remaining others x y w h = (x, y + Z.of_nat k)
     ∧ (∀ j : nat, (j < k)%nat → Grid.hasCollision others x (y + Z.of_nat j) w h = true)
     ∧ ((k < remaining)%nat → Grid.hasCollision others x (y + Z.of_nat k) w h = false).
Proof.
  revert y. induction remaining as [|remaining IH]; intros y; simpl.
  - exists 0%nat. rewrite Z.add_0_r. split; [lia|]. split; [done|]. split; intros; lia.
  - destruct (Grid.hasCollision others x y w h) eqn:E.
    + destruct (IH (y + 1)) as (k & Hk & Hr & Hbefore & Hlast).
      exists (S k). split; [lia|]. split; [rewrite Hr; f_equal; lia|]. split.
      * intros [|j] Hj; [by rewrite Z.add_0_r|].
        replace (y + Z.of_nat (S j)) with (y + 1 + Z.of_nat j) by lia. apply Hbefore. lia.
      * intros Hlt. replace (y + Z.of_nat (S k)) with (y + 1 + Z.of_nat k) by lia.
        apply Hlast. lia.
    + exists 0%nat. rewrite Z.add_0_r. split; [lia|]. split; [done|].
      split; [intros; lia | done].
Qed.

(** When some row within the attempts is free, the loop ends on a free
    row. *)
Lemma pushDown_settles remaining others x y w h (k0 : nat) :
  (k0 ≤ remaining)%nat → Grid.hasCollision others x (y + Z.of_nat k0) w h = false →
  let p := Grid.pushDown remaining others x y w h in
  p.1 = x ∧ y ≤ p.2 ∧ Grid.hasCollision others p.1 p.2 w h = false.
Proof.
  intros Hk0 Hfree.
  destruct (pushDown_spec remaining others x y w h) as (k & Hk & -> & Hbefore & Hlast).
  simpl. split; [done|]. split; [lia|].
  destruct (decide (k < remaining)%nat) as [Hlt|Hge]; [by apply Hlast|].
  assert (k = remaining) as -> by lia.
  destruct (decide (k0 = remaining)) as [->|Hne]; [done|].
  rewrite Hbefore in Hfree by lia. done.
Qed.

End CollisionFacts.

(** C3, as stated, fails on its scenario: the candidate (1,0) of the 3x2
    widget covers columns 1 to 3 and so meets the widget at (3,0); the
    drag does not commit (1,0). *)
Lemma drag_scenario_not_1_0 :
  positionOf "a-1" (Grid.dragGesture "a-1" 1 0 (Grid.init twoWidgets)) ≠ Some (1, 0).
Proof. vm_compute. discriminate. Qed.

(** C3, amended. [validatePosition] clamps [x] to
    [max 0 (min x (columns - w))] (in [[0, columns - w]] when the widget
    fits the grid) and [y] to [max 0 y]; it then returns the clamped
    candidate pushed down [k] rows, [0 ≤ k ≤ 100], where the candidate
    meets a non-excluded widget (axis-aligned overlap test) at each of
    the [k] rows tried before, and meets none at the row returned unless
    [k = 100], the row returned untested after 100 attempts. A clamped
    candidate that meets no widget is returned as it is. In the
    scenario the candidate (1,0) meets the widget at (3,0) and the drag
    commits (1,2). *)
Theorem validatePosition_push_down (x y w h : Z) (excludeId : option string)
    (g : GridManager) :
  let columns := cols (gridSettings g) in
  let x0 := clampedX columns x w in
  let y0 := clampedY y in
  let others := Grid.othersThan excludeId (widgets (state (manager g))) in
  (w ≤ columns → 0 ≤ x0 ≤ columns - w) ∧ 0 ≤ y0
  ∧ (∀ o, o ∈ others ↔ o ∈ widgets (state (manager g)) ∧ Some (wid o) ≠ excludeId)
  ∧ (∃ k, 0 ≤ k ≤ 100
        ∧ Grid.validatePosition x y w h excludeId g = (x0, y0 + k)
        ∧ (∀ j, 0 ≤ j < k → collides others x0 (y0 + j) w h)
        ∧ (k < 100 → ¬ collides others x0 (y0 + k) w h))
  ∧ (¬ collides others x0 y0 w h → Grid.validatePosition x y w h excludeId g = (x0, y0))
  ∧ positionOf "a-1" (Grid.dragGesture "a-1" 1 0 (Grid.init twoWidgets)) = Some (1, 2).
Proof.
  intros columns x0 y0 others.
  destruct (CollisionFacts.pushDown_spec Grid.maxAttempts others x0 y0 w h)
    as (k & Hk & Hr & Hbefore & Hlast).
  unfold Grid.maxAttempts in Hk, Hlast.
  split_and!.
  - unfold x0, clampedX. lia.
  - unfold y0, clampedY. lia.
  - intros o. apply CollisionFacts.elem_of_othersThan.
  - exists (Z.of_nat k). split; [lia|]. split; [done|]. split.
    + intros j Hj. apply CollisionFacts.hasCollision_true.
      replace j with (Z.of_nat (Z.to_nat j)) by lia. apply Hbefore. lia.
    + intros Hlt. rewrite <- CollisionFacts.hasCollision_true, Hlast by lia. done.
  - intros Hfree.
    change (Grid.validatePosition x y w h excludeId g)
      with (Grid.pushDown Grid.maxAttempts others x0 y0 w h).
    destruct k as [|k]; [by rewrite Hr, Z.add_0_r|].
    destruct Hfree. apply CollisionFacts.hasCollision_true.
    specialize (Hbefore 0%nat ltac:(lia)). by rewrite Z.add_0_r in Hbefore.
  - by vm_compute.
Qed.

Lemma validatePosition_push_down_witness :
  Grid.validatePosition 5 0 3 2 (Some "b-1") (Grid.init twoWidgets) = (5, 0).
Proof.
  apply (validatePosition_push_down 5 0 3 2 (Some "b-1") (Grid.init twoWidgets)).
  intros Hmeet. apply CollisionFacts.hasCollision_true in Hmeet.
  vm_compute in Hmeet. discriminate.
Defined.

(** ** Layouts at rest *)

Module LayoutInvariant.

Lemma overlap_sym a b : overlap a b = overlap b a.
Proof. apply CollisionFacts.rectsIntersect_sym. Qed.

(** Two rectangles of positive size that intersect share a cell. *)
Lemma intersect_shares_cell a x y w h :
  positiveSize a → 1 ≤ w → 1 ≤ h →
  Grid.rectsIntersect (wx a) (wy a) (ww a) (wh a) x y w h = true →
  ∃ dx dy, 0 ≤ dx < w ∧ 0 ≤ dy < h ∧ occupies a (x + dx) (y + dy).
Proof.
  intros [Hw Hh] Hw' Hh' Hi. apply CollisionFacts.rectsIntersect_true in Hi.
  exists (Z.max (wx a) x - x), (Z.max (wy a) y - y). unfold occupies. lia.
Qed.

(** The origin chosen by the search meets no widget of the list. *)
Lemma firstFit_no_overlap s width height p a :
  firstFit s width height p → 1 ≤ width → 1 ≤ height →
  Forall positiveSize (widgets s) → a ∈ widgets s →
  Grid.rectsIntersect (wx a) (wy a) (ww a) (wh a) p.1 p.2 width height = false.
Proof.
  intros Hfit Hw Hh Hpos Ha. rewrite Forall_forall in Hpos.
  destruct Hfit as [(_ & Hfree & _)|[_ ->]].
  - apply not_true_iff_false. intros Hi.
    apply intersect_shares_cell in Hi as (dx & dy & Hdx & Hdy & Hocc); [|by auto..].
    apply (Hfree dx dy Hdx Hdy). by exists a.
  - apply not_true_iff_false. rewrite CollisionFacts.rectsIntersect_true. simpl.
    assert (wy a + wh a ≤ tallestStack (widgets s)); [|lia].
    apply JsFacts.math_max0_ge, list_elem_of_fmap. by exists a.
Qed.

Lemma NoOverlap_snoc ws w :
  NoOverlap ws → (∀ a, a ∈ ws → overlap a w = false) → NoOverlap (ws ++ [w]).
Proof.
  intros Hno Hnew i j a b Hi Hj Hij.
  apply lookup_app_Some in Hi as [Hi|[Hi Hi']], Hj as [Hj|[Hj Hj']].
  - by apply (Hno i j).
  - apply list_lookup_singleton_Some in Hj' as [_ <-].
    apply Hnew. by apply list_elem_of_lookup_2 in Hi.
  - apply list_lookup_singleton_Some in Hi' as [_ <-].
    rewrite overlap_sym. apply Hnew. by apply list_elem_of_lookup_2 in Hj.
  - apply list_lookup_singleton_Some in Hi' as [Hi' _], Hj' as [Hj' _]. lia.
Qed.

Lemma NoOverlap_insert ws i new :
  NoOverlap ws →
  (∀ k b, ws !! k = Some b → k ≠ i → overlap new b = false) →
  NoOverlap (<[i := new]> ws).
Proof.
  intros Hno Hnew j k a b Hj Hk Hjk.
  apply list_lookup_insert_Some in Hj as [(<- & <- & _)|[Hji Hj]],
    Hk as [(<- & <- & _)|[Hki Hk]].
  - done.
  - by apply (Hnew k).
  - rewrite overlap_sym. by apply (Hnew j).
  - by apply (Hno j k).
Qed.

(** With distinct ids, every record at another index has another id. *)
Lemma UniqueIds_other ws i j a b :
  UniqueIds ws → ws !! i = Some a → ws !! j = Some b → i ≠ j → wid a ≠ wid b.
Proof.
  unfold UniqueIds. intros Hnd Hi Hj Hij E. apply Hij.
  apply (NoDup_lookup _ i j (wid a) Hnd); rewrite list_lookup_fmap.
  - by rewrite Hi.
  - by rewrite Hj, E.
Qed.

Lemma or_default_positive o d : 1 ≤ d → (∀ v, o = Some v → 1 ≤ v) → 1 ≤ Js.or_default o d.
Proof.
  intros Hd Ho. destruct o as [v|]; simpl; [|done].
  specialize (Ho v eq_refl). destruct (Z.eqb_spec v 0); lia.
Qed.

(** An auto-placed [addWidget] keeps the layout tidy. *)
Lemma addWidget_Tidy d m :
  autoPlaced d → Tidy (widgets (state m)) →
  Tidy (widgets (state (State.addWidget d m).2)).
Proof.
  intros (Hid & Hx & Hy & Hw & Hh) (Hids & Hpos & Hno).
  pose proof (AddFacts.addWidget_searched d m (or_introl Hx) (or_introl Hy)) as Hsearch.
  destruct (AddFacts.addWidget_size d m) as [Ew Eh].
  assert (1 ≤ ww (State.addWidget d m).1 ∧ 1 ≤ wh (State.addWidget d m).1) as [Hw1 Hh1].
  { rewrite Ew, Eh. split; by apply or_default_positive. }
  rewrite AddFacts.addWidget_widgets. split_and!.
  - apply StoreFacts.UniqueIds_snoc; [done|]. rewrite AddFacts.addWidget_id, Hid.
    apply IdFacts.generateWidgetId_fresh.
  - apply Forall_app. split; [done|]. by repeat constructor.
  - apply NoOverlap_snoc; [done|]. intros a Ha. unfold overlap.
    pose proof (SearchFacts.findEmptyPosition_firstFit
                  (ww (State.addWidget d m).1) (wh (State.addWidget d m).1) (state m))
      as Hfit.
    rewrite <- Hsearch in Hfit.
    by apply (firstFit_no_overlap (state m) _ _ _ a Hfit).
Qed.

Lemma NoOverlap_nil : NoOverlap [].
Proof. intros i j a b Hi. by rewrite lookup_nil in Hi. Qed.

Lemma NoOverlap_cons a ws :
  Forall (fun b => overlap a b = false) ws → NoOverlap ws → NoOverlap (a :: ws).
Proof.
  intros Ha Hno i j b c Hi Hj Hij. rewrite Forall_forall in Ha.
  destruct i as [|i], j as [|j]; simpl in Hi, Hj.
  - done.
  - injection Hi as <-. apply Ha. by apply list_elem_of_lookup_2 in Hj.
  - injection Hj as <-. rewrite overlap_sym. apply Ha. by apply list_elem_of_lookup_2 in Hi.
  - apply (Hno i j); [done | done | lia].
Qed.

(** The built-in layout is tidy. *)
Lemma Tidy_default : Tidy State.getDefaultWidgets.
Proof.
  split_and!.
  - apply StoreFacts.UniqueIds_default.
  - repeat constructor; simpl; lia.
  - unfold State.getDefaultWidgets.
    repeat (apply NoOverlap_cons; [by repeat constructor|]). apply NoOverlap_nil.
Qed.

End LayoutInvariant.

(** ** Drag gestures *)

Module DragFacts.

Lemma findWidget_Some widgetId g widget :
  Grid.findWidget widgetId g = Some widget →
  ∃ i, State.findIndex widgetId (widgets (state (manager g))) = Some (i, widget).
Proof.
  unfold Grid.findWidget. destruct (State.findIndex _ _) as [[i w]|]; [|done].
  simpl. intros [= ->]. by exists i.
Qed.

(** A whole drag gesture on an idle engine, as one step on the manager. *)
Lemma dragGesture_idle widgetId qx qy g :
  idle g →
  Grid.dragGesture widgetId qx qy g
  = match Grid.findWidget widgetId g with
    | None => g
    | Some widget =>
        let p := finalPos widget widgetId qx qy g in
        mkGridManager
          (if moved widget p
           then (State.moveWidget widgetId (positionUpdate p.1 p.2) (manager g)).2
           else manager g)
          (gridSettings g) false (isResizing g) None (resizeData g)
    end.
Proof.
  intros [Hd Hr]. unfold Grid.dragGesture, Grid.handlePointerDown.
  rewrite Hd, Hr. simpl. unfold Grid.startDrag.
  destruct (Grid.findWidget widgetId g) as [widget|] eqn:E.
  - unfold Grid.handlePointerUp. simpl. unfold Grid.endDrag. simpl.
    rewrite Hr. reflexivity.
  - unfold Grid.handlePointerUp. by rewrite Hd, Hr.
Qed.

Lemma dragGesture_keeps_idle widgetId qx qy g :
  idle g →
  idle (Grid.dragGesture widgetId qx qy g)
  ∧ gridSettings (Grid.dragGesture widgetId qx qy g) = gridSettings g.
Proof.
  intros Hidle. rewrite (dragGesture_idle _ _ _ _ Hidle).
  destruct (Grid.findWidget widgetId g); [|done]. by destruct Hidle.
Qed.

(** The widget list after a drag gesture: the dragged record at its new
    position, when it moved. *)
Lemma dragGesture_widgets widgetId qx qy g :
  idle g →
  widgets (state (manager (Grid.dragGesture widgetId qx qy g)))
  = match State.findIndex widgetId (widgets (state (manager g))) with
    | None => widgets (state (manager g))
    | Some (i, widget) =>
        let p := finalPos widget widgetId qx qy g in
        if moved widget p
        then <[i := set_position p.1 p.2 widget]> (widgets (state (manager g)))
        else widgets (state (manager g))
    end.
Proof.
  intros Hidle. rewrite (dragGesture_idle _ _ _ _ Hidle). unfold Grid.findWidget.
  destruct (State.findIndex _ _) as [[i widget]|] eqn:E; [|done].
  simpl. destruct (moved _ _); [|done]. simpl.
  unfold State.moveWidget. rewrite StoreFacts.updateWidget_widgets, E. done.
Qed.

(** When the gesture settles, the committed cell meets no other
    widget. *)
Lemma finalPos_free widget widgetId qx qy g :
  Grid.findWidget widgetId g = Some widget →
  settlesWithinAttempts widgetId qx qy g →
  let p := finalPos widget widgetId qx qy g in
  ∀ o, o ∈ Grid.othersThan (Some widgetId) (widgets (state (manager g))) →
       Grid.rectsIntersect p.1 p.2 (ww widget) (wh widget) (wx o) (wy o) (ww o) (wh o) = false.
Proof.
  intros E. unfold settlesWithinAttempts. rewrite E. intros (k & Hk & Hfree).
  rewrite <- CollisionFacts.hasCollision_true, not_true_iff_false in Hfree.
  replace k with (Z.of_nat (Z.to_nat k)) in Hfree by lia.
  apply CollisionFacts.pushDown_settles with (remaining := Grid.maxAttempts) in Hfree
      as (_ & _ & Hfree'); [|unfold Grid.maxAttempts; lia].
  apply CollisionFacts.hasCollision_false. exact Hfree'.
Qed.

(** A drag gesture that settles keeps the layout tidy. *)
Lemma dragGesture_Tidy widgetId qx qy g :
  idle g → settlesWithinAttempts widgetId qx qy g →
  Tidy (widgets (state (manager g))) →
  Tidy (widgets (state (manager (Grid.dragGesture widgetId qx qy g)))).
Proof.
  intros Hidle Hsettles (Hids & Hpos & Hno).
  rewrite (dragGesture_widgets _ _ _ _ Hidle).
  destruct (State.findIndex _ _) as [[i widget]|] eqn:E; [|done].
  assert (Grid.findWidget widgetId g = Some widget) as Efind
    by (unfold Grid.findWidget; by rewrite E).
  pose proof (finalPos_free _ _ _ _ _ Efind Hsettles) as Hfree.
  apply StoreFacts.findIndex_Some in E as (Hi & Hid & _).
  simpl in *. destruct (moved _ _); [|done]. split_and!.
  - unfold UniqueIds. rewrite list_fmap_insert. simpl.
    rewrite list_insert_id; [done|]. by rewrite list_lookup_fmap, Hi.
  - apply Forall_insert; [done|]. rewrite Forall_forall in Hpos.
    apply (Hpos widget). by apply list_elem_of_lookup_2 in Hi.
  - apply LayoutInvariant.NoOverlap_insert; [done|].
    intros k b Hk Hki. unfold overlap. simpl. apply Hfree.
    apply CollisionFacts.elem_of_othersThan. split; [by apply list_elem_of_lookup_2 in Hk|].
    intros [= Eid]. apply (LayoutInvariant.UniqueIds_other _ k i b widget Hids Hk Hi Hki).
    congruence.
Qed.

(** A drag settles whenever the stacks of the other widgets end within
    100 rows below the clamped candidate. *)
Lemma short_stacks_settle widgetId qx qy g :
  tallestStack (widgets (state (manager g))) ≤ clampedY (Z.max 0 qy) + 100 →
  settlesWithinAttempts widgetId qx qy g.
Proof.
  intros Hshort. unfold settlesWithinAttempts.
  destruct (Grid.findWidget widgetId g) as [widget|]; [|done].
  exists 100. split; [lia|]. intros (o & Ho & Hmeet).
  apply CollisionFacts.elem_of_othersThan in Ho as [Ho _].
  assert (wy o + wh o ≤ tallestStack (widgets (state (manager g)))) as Hbottom.
  { apply JsFacts.math_max0_ge, list_elem_of_fmap. by exists o. }
  apply Hmeet. right. right. right. lia.
Qed.

Lemma commit_keeps_idle c g : idle g → idle (commit c g).
Proof.
  intros Hidle. destruct c; simpl; [done|]. by apply dragGesture_keeps_idle.
Qed.

Lemma commit_Tidy c g :
  idle g → onValidatedPath c → settles c g →
  Tidy (widgets (state (manager g))) → Tidy (widgets (state (manager (commit c g)))).
Proof.
  intros Hidle Hc Hs Htidy. destruct c; simpl in *.
  - by apply LayoutInvariant.addWidget_Tidy.
  - by apply dragGesture_Tidy.
Qed.

Lemma commits_Tidy l g :
  idle g → validatedPath l g →
  Tidy (widgets (state (manager g))) → Tidy (widgets (state (manager (commits l g)))).
Proof.
  revert g. induction l as [|c l IH]; intros g Hidle Hpath Htidy; [done|].
  destruct Hpath as (Hc & Hs & Hpath). simpl. apply IH; [|done|].
  - by apply commit_keeps_idle.
  - by apply commit_Tidy.
Qed.

End DragFacts.

(** C1, as stated, fails: two auto-placed widgets and one drag commit
    leave two overlapping records. The 3x2 widget dragged onto a stack
    of 200 rows is pushed down 100 times and committed at row 100,
    inside the stack. *)
Lemma drag_onto_tall_stack_overlaps :
  Forall onValidatedPath ontoTallStack
  ∧ ¬ NoOverlap (widgets (state (manager (commits ontoTallStack (Grid.init emptyGrid))))).
Proof.
  split.
  - repeat constructor; simpl; intros v [= <-]; lia.
  - assert (widgets (state (manager (commits ontoTallStack (Grid.init emptyGrid))))
            = [ mkWidget "notes-1" "notes" 0 0 3 200 false None;
                mkWidget "clock-1" "clock" 0 100 3 2 false None ]) as ->
      by (vm_compute; reflexivity).
    intros Hno. specialize (Hno 0%nat 1%nat _ _ eq_refl eq_refl ltac:(lia)).
    vm_compute in Hno. discriminate.
Qed.

(** C1, amended. Start from an idle engine on a layout whose records have
    distinct ids, positive sizes and no overlap. Then after any sequence
    of auto-placed [addWidget] calls (no position and no id passed) and
    drag commits, each drag finding within the 100 attempts of the
    validator a row at which the dragged widget meets no other, no two
    records of the widget list overlap. *)
Theorem validated_commits_no_overlap (l : list Commit) (g : GridManager) :
  idle g → Tidy (widgets (state (manager g))) → validatedPath l g →
  NoOverlap (widgets (state (manager (commits l g)))).
Proof.
  intros Hidle Htidy Hpath. by apply (DragFacts.commits_Tidy l g Hidle Hpath Htidy).
Qed.

Lemma validated_commits_no_overlap_witness :
  NoOverlap
    (widgets (state (manager
       (commits [AutoPlace (threeByTwo "clock"); DragTo "clock-2" 3 0]
                (Grid.init freshManager))))).
Proof.
  apply validated_commits_no_overlap.
  - split; reflexivity.
  - apply LayoutInvariant.Tidy_default.
  - cbn [validatedPath onValidatedPath settles]. split_and!; try done.
    + split_and!; [reflexivity | reflexivity | reflexivity | intros v [= <-]; lia
                   | intros v [= <-]; lia].
    + apply DragFacts.short_stacks_settle. by vm_compute.
Defined.

(** ** Bounds *)

Module BoundsFacts.

Lemma updateWidget_InBounds columns widgetId u g widget :
  Grid.findWidget widgetId g = Some widget →
  Forall (InBounds columns) (widgets (state (manager g))) →
  InBounds columns (State.mergeUpdates widget u) →
  Forall (InBounds columns)
         (widgets (state (State.updateWidget widgetId u (manager g)).2)).
Proof.
  intros Efind Hall Hnew. apply DragFacts.findWidget_Some in Efind as (i & E).
  rewrite StoreFacts.updateWidget_widgets, E. by apply Forall_insert.
Qed.

Lemma findWidget_InBounds columns widgetId g widget :
  Grid.findWidget widgetId g = Some widget →
  Forall (InBounds columns) (widgets (state (manager g))) → InBounds columns widget.
Proof.
  intros Efind Hall. apply DragFacts.findWidget_Some in Efind as (i & E).
  apply StoreFacts.findIndex_Some in E as (Hi & _ & _).
  rewrite Forall_forall in Hall. apply Hall. by apply list_elem_of_lookup_2 in Hi.
Qed.

(** Every keyboard action keeps every record within the bounds. *)
Lemma handleKeydown_InBounds focused key modifier shift g :
  Forall (InBounds (cols (gridSettings g))) (widgets (state (manager g))) →
  Forall (InBounds (cols (gridSettings g)))
         (widgets (state (manager (Grid.handleKeydown focused key modifier shift g)))).
Proof.
  intros Hall. unfold Grid.handleKeydown.
  destruct focused as [widgetId|]; [|done].
  destruct (Grid.findWidget widgetId g) as [widget|] eqn:Efind; [|done].
  pose proof (findWidget_InBounds _ _ _ _ Efind Hall) as (Hx & Hxw & Hw & Hh).
  unfold Grid.step, State.resizeWidget, State.moveWidget.
  destruct key, modifier; try done;
    repeat match goal with
      | |- context [if ?b then _ else _] => destruct b eqn:?; try done
      end;
    simpl;
    try (apply (updateWidget_InBounds _ _ _ _ widget Efind Hall);
         unfold InBounds; simpl; lia).
  all: rewrite StoreFacts.removeWidget_widgets;
    destruct (State.findIndex _ _) as [[i old]|]; [by apply Forall_delete | done].
Qed.

(** The validator returns the clamped column. *)
Lemma validatePosition_x x y w h excludeId g :
  (Grid.validatePosition x y w h excludeId g).1 = clampedX (cols (gridSettings g)) x w.
Proof.
  unfold Grid.validatePosition.
  by destruct (CollisionFacts.pushDown_spec Grid.maxAttempts
                 (Grid.othersThan excludeId (widgets (state (manager g))))
                 (Z.max 0 (Z.min x (cols (gridSettings g) - w))) (Z.max 0 y) w h)
    as (k & _ & -> & _).
Qed.

(** Every drag gesture keeps every record within the bounds. *)
Lemma dragGesture_InBounds widgetId qx qy g :
  idle g →
  Forall (InBounds (cols (gridSettings g))) (widgets (state (manager g))) →
  Forall (InBounds (cols (gridSettings g)))
         (widgets (state (manager (Grid.dragGesture widgetId qx qy g)))).
Proof.
  intros Hidle Hall. rewrite (DragFacts.dragGesture_widgets _ _ _ _ Hidle).
  destruct (State.findIndex _ _) as [[i widget]|] eqn:E; [|done].
  simpl. destruct (moved _ _); [|done].
  apply Forall_insert; [done|].
  apply StoreFacts.findIndex_Some in E as (Hi & _ & _).
  rewrite Forall_forall in Hall.
  destruct (Hall widget) as (Hx & Hxw & Hw & Hh); [by apply list_elem_of_lookup_2 in Hi|].
  unfold InBounds, finalPos. simpl. rewrite validatePosition_x.
  unfold clampedX. lia.
Qed.

End BoundsFacts.

(** ** The pointer resize *)

Module ResizeFacts.

(** [parseInt] finds no digit at the head of ["span ..."]. *)
Lemma parseInt_span s : Js.parseInt ("span " +:+ s) = Js.NaN.
Proof. reflexivity. Qed.

Lemma minus_NaN a : Js.minus Js.NaN a = Js.NaN.
Proof. done. Qed.

(** The size read back from grid lines written by
    [updateWidgetPosition] or [previewResize] is [NaN] by [NaN]. *)
Lemma finalPosOf_gridLines x y w h :
  final_w (Grid.finalPosOf (Grid.gridLines x y w h)) = Js.NaN
  ∧ final_h (Grid.finalPosOf (Grid.gridLines x y w h)) = Js.NaN.
Proof. done. Qed.

(** The pointer moves of a resize gesture: the element shows the grid
    lines of the widget until the first move, and those of the last
    preview after it. *)
Lemma resize_moves deltas g r x y w h :
  isDragging g = false → isResizing g = true → resizeData g = Some r →
  resize_element r = Grid.gridLines x y w h →
  ∃ r' x' y' w' h',
    foldl (fun g d => Grid.handlePointerMove 0 0 d.1 d.2 g) g deltas
    = mkGridManager (manager g) (gridSettings g) false true (dragData g) (Some r')
    ∧ resize_widgetId r' = resize_widgetId r
    ∧ resize_originalSize r' = resize_originalSize r
    ∧ resize_originalPosition r' = resize_originalPosition r
    ∧ resize_element r' = Grid.gridLines x' y' w' h'.
Proof.
  revert g r x y w h. induction deltas as [|d deltas IH]; intros g r x y w h Hd Hr Hdata Hel.
  - exists r, x, y, w, h. split_and!; try done. destruct g. simpl in *. by subst.
  - set (v := Grid.resizeCandidate r d.1 d.2 g).
    set (g1 := mkGridManager (manager g) (gridSettings g) (isDragging g) (isResizing g)
                 (dragData g)
                 (Some (mkResizeData (resize_widgetId r) (resize_widget r)
                          (resize_handle r) (resize_originalSize r)
                          (resize_originalPosition r) (Grid.previewResize v)))).
    assert (Grid.handlePointerMove 0 0 d.1 d.2 g = g1) as Estep.
    { unfold Grid.handlePointerMove. rewrite Hd, Hr. unfold Grid.updateResize.
      by rewrite Hdata. }
    destruct (IH g1 _ (rx v) (ry v) (rw v) (rh v) Hd Hr eq_refl eq_refl)
      as (r' & x' & y' & w' & h' & E & ? & ? & ? & ?).
    exists r', x', y', w', h'. cbn [foldl]. rewrite Estep, E. by split_and!.
Qed.

(** Every pointer resize that reaches [endResize] hands [updateWidget] a
    size that is [NaN] by [NaN]. *)
Lemma resizeGesture_writes_NaN widgetId handle deltas g widget :
  idle g → Grid.findWidget widgetId g = Some widget →
  ∃ finalPos g',
    Grid.resizeGesture widgetId handle deltas g = WroteNaN widgetId finalPos g'
    ∧ final_w finalPos = Js.NaN ∧ final_h finalPos = Js.NaN
    ∧ manager g' = manager g ∧ idle g'.
Proof.
  intros [Hd Hr] Hfind. unfold Grid.resizeGesture, Grid.handlePointerDown.
  rewrite Hd, Hr. simpl. unfold Grid.startResize. rewrite Hfind.
  edestruct (resize_moves deltas) as (r' & x' & y' & w' & h' & -> & Eid & _ & _ & Eel);
    [| |reflexivity|reflexivity|]; [done..|].
  unfold Grid.handlePointerUp. cbn [isDragging isResizing].
  unfold Grid.endResize. cbn [resizeData]. rewrite Eel, Eid.
  cbn [resize_widgetId]. unfold Grid.finalPosOf, Grid.gridLines.
  cbn [gridColumnStart gridColumnEnd gridRowStart gridRowEnd]. rewrite !parseInt_span.
  destruct (Js.parseInt (Js.int_to_string (x' + 1))),
           (Js.parseInt (Js.int_to_string (y' + 1)));
    cbn [Js.minus final_x final_y final_w final_h Js.differs];
    rewrite !orb_true_r; eexists _, _; (split; [reflexivity|]); done.
Qed.

End ResizeFacts.

(** C4: the pointer resize commit breaks the bounds. On the built-in
    12-column layout, every widget of which is within the bounds, press
    the east handle of the clock (3x2 at (0,0)), move the pointer one
    cell to the right and release it. The move previews the grid lines
    [1 / span 4] and [1 / span 2]; [endResize] reads [gridColumnEnd] and
    [gridRowEnd] of the element back, ["span 4"] and ["span 2"], of
    which [parseInt] makes [NaN], and hands [updateWidget] the position
    (0,0) with the size [NaN] by [NaN]: no [w ≥ 1], no [h ≥ 1] and no
    [x + w ≤ columns] holds of that record. The same happens when the
    pointer is released without a move. *)
Theorem resize_commit_writes_NaN :
  let g := Grid.init freshManager in
  let pressed := Grid.handlePointerDown (OnResizeHandle "clock-1" handle_e) g in
  let written := mkFinalPos (Js.Finite 0) (Js.Finite 0) Js.NaN Js.NaN in
  Forall (InBounds 12) (widgets (state (manager g)))
  ∧ resize_element <$> resizeData (Grid.handlePointerMove 0 0 1 0 pressed)
    = Some (mkStyle "1" "span 4" "1" "span 2")
  ∧ Js.parseInt "span 4" = Js.NaN
  ∧ Grid.resizeGesture "clock-1" handle_e [(1, 0)] g = WroteNaN "clock-1" written g
  ∧ Grid.resizeGesture "clock-1" handle_e [] g = WroteNaN "clock-1" written g.
Proof.
  split_and!.
  - repeat constructor; simpl; lia.
  - by vm_compute.
  - reflexivity.
  - by vm_compute.
  - by vm_compute.
Qed.

(** ** Resize handles *)

(** C5: the preview of a resize does not keep the opposite edge in
    place. [updateResize] moves the origin by the delta and the size by
    its opposite, which is the anchoring rule, but floors the origin at
    0 and the size at 1 each on its own. On a 12-column grid the west
    handle of the clock (3x2 at (0,0)) moved five cells to the right
    previews (5,0,1,2): the right edge goes from column 3 to column 6;
    the west handle of a 3x2 widget at (2,0) moved five cells to the
    left previews (0,0,8,2): the right edge goes from column 5 to column
    8; the north handle of the clock moved five cells down previews
    (0,5,3,1): the bottom edge goes from row 2 to row 6. These are the
    grid lines that the pointer-move writes to the element. *)
Theorem resize_preview_moves_opposite_edge :
  let g := Grid.init freshManager in
  let pressed := Grid.handlePointerDown (OnResizeHandle "clock-1" handle_w) g in
  preview theClock handle_w 5 0 g = mkRect 5 0 1 2
  ∧ preview (mkWidget "a-1" "a" 2 0 3 2 false None) handle_w (-5) 0 g = mkRect 0 0 8 2
  ∧ preview theClock handle_n 0 5 g = mkRect 0 5 3 1
  ∧ ¬ keepsOppositeEdge theClock handle_w 5 0 g
  ∧ resize_element <$> resizeData (Grid.handlePointerMove 0 0 5 0 pressed)
    = Some (Grid.previewResize (mkRect 5 0 1 2)).
Proof.
  split_and!; try reflexivity.
  intros [Hwest _]. specialize (Hwest eq_refl). vm_compute in Hwest. discriminate.
Qed.

(** ** The callbacks of the page *)

Module PageFacts.

Lemma setConfig_same c : Page.setConfig (Some c) c = c.
Proof. unfold Page.setConfig. simpl. apply (idemp_L (∪)). Qed.

Lemma mergeUpdates_same_config w c :
  wconfig w = Some c → State.mergeUpdates w (configUpdate c) = w.
Proof. destruct w. simpl. by intros ->. Qed.

(** One call of [updateWidget] on the page, on a widget that is there. *)
Lemma updateWidget_step stack widgetId u p i w :
  State.findIndex widgetId (widgets (state (manager (engine p)))) = Some (i, w) →
  Page.updateWidget stack widgetId u p
  = let widget := State.mergeUpdates w u in
    let m := manager (engine p) in
    let m1 := mkManager (set_widgets (<[i := widget]> (widgets (state m))) (state m))
                        (emitted m ++ [widget_updated widget w u]) in
    let p1 := mkPage (Grid.with_manager m1 (engine p)) (instances p) in
    match instances p !! widgetId with
    | None => (true, p1)
    | Some config =>
        let config := Page.setConfig (wconfig widget) config in
        let p2 := mkPage (engine p1) (<[widgetId := config]> (instances p)) in
        match stack with
        | O => (true, p2)
        | S stack => (true, (Page.updateWidget stack widgetId (configUpdate config) p2).2)
        end
    end.
Proof.
  intros Hfind.
  assert (wid w = widgetId) as Eid
    by (by apply StoreFacts.findIndex_Some in Hfind as (_ & ? & _)).
  destruct stack; simpl; rewrite Hfind; unfold State.updateWidget; rewrite Hfind;
    simpl; rewrite Eid; reflexivity.
Qed.

(** Once the record holds the config of the instance, each further call
    writes the same config again: the state and the instance stay as
    they are, and one more [widget-updated] is emitted per call. *)
Lemma updateWidget_settled stack widgetId p i w c :
  State.findIndex widgetId (widgets (state (manager (engine p)))) = Some (i, w) →
  wconfig w = Some c → instances p !! widgetId = Some c →
  let p' := (Page.updateWidget stack widgetId (configUpdate c) p).2 in
  state (manager (engine p')) = state (manager (engine p))
  ∧ instances p' = instances p
  ∧ sameEngine (engine p) (engine p')
  ∧ emitted (manager (engine p'))
    = emitted (manager (engine p))
      ++ replicate (S stack) (widget_updated w w (configUpdate c)).
Proof.
  revert p. induction stack as [|stack IH]; intros p Hfind Hc Hinst.
  - rewrite (updateWidget_step _ _ _ _ i w Hfind). cbv zeta. rewrite Hinst.
    rewrite (mergeUpdates_same_config _ _ Hc), Hc, setConfig_same.
    apply StoreFacts.findIndex_Some in Hfind as (Hi & _).
    simpl. rewrite (list_insert_id _ _ _ Hi), insert_id by done.
    split_and!; try done. by destruct (state (manager (engine p))).
  - rewrite (updateWidget_step _ _ _ _ i w Hfind). cbv zeta. rewrite Hinst.
    rewrite (mergeUpdates_same_config _ _ Hc), Hc, setConfig_same.
    pose proof Hfind as Hfind'.
    apply StoreFacts.findIndex_Some in Hfind' as (Hi & _).
    rewrite (list_insert_id _ _ _ Hi), insert_id by done.
    assert (set_widgets (widgets (state (manager (engine p)))) (state (manager (engine p)))
            = state (manager (engine p))) as -> by (by destruct (state (manager (engine p)))).
    cbn [snd engine].
    match goal with |- context [Page.updateWidget stack widgetId _ ?q] =>
      pose proof (IH q Hfind Hc Hinst) as IHq end.
    cbv zeta in IHq. destruct IHq as (Es & Ei & Ee & El). rewrite Es, Ei, El. simpl.
    split_and!; try done. by rewrite <- app_assoc.
Qed.

Lemma findIndex_insert widgetId ws i w w' :
  State.findIndex widgetId ws = Some (i, w) → wid w' = widgetId →
  State.findIndex widgetId (<[i := w']> ws) = Some (i, w').
Proof.
  intros Hfind Eid. unfold State.findIndex in *.
  apply list_find_Some in Hfind as (Hi & _ & Hbefore).
  apply list_find_insert_Some. right. left. split_and!; try done.
  by eapply lookup_lt_Some.
Qed.

(** A call of [updateWidget] on a widget with an instance, with room on
    the stack for one nested call at least: the record is merged with
    the updates, then its config is replaced by that of the instance,
    which [setConfig] has merged with the record's; the nested calls
    after the first write that config again. *)
Lemma updateWidget_round stack widgetId u p i w c0 :
  State.findIndex widgetId (widgets (state (manager (engine p)))) = Some (i, w) →
  instances p !! widgetId = Some c0 →
  let widget := State.mergeUpdates w u in
  let c := Page.setConfig (wconfig widget) c0 in
  let final := State.mergeUpdates widget (configUpdate c) in
  let p' := (Page.updateWidget (S stack) widgetId u p).2 in
  state (manager (engine p'))
  = set_widgets (<[i := final]> (widgets (state (manager (engine p)))))
                (state (manager (engine p)))
  ∧ instances p' = <[widgetId := c]> (instances p)
  ∧ sameEngine (engine p) (engine p')
  ∧ emitted (manager (engine p'))
    = emitted (manager (engine p))
      ++ widget_updated widget w u :: widget_updated final widget (configUpdate c)
         :: replicate stack (widget_updated final final (configUpdate c)).
Proof.
  intros Hfind Hinst widget c final p'. subst p'.
  assert (wid w = widgetId) as Eid
    by (by apply StoreFacts.findIndex_Some in Hfind as (_ & ? & _)).
  rewrite (updateWidget_step _ _ _ _ i w Hfind). cbv zeta. rewrite Hinst.
  fold widget. fold c. cbn [snd].
  match goal with |- context [Page.updateWidget stack widgetId _ ?q] => set (p2 := q) end.
  assert (State.findIndex widgetId (widgets (state (manager (engine p2))))
          = Some (i, widget)) as Hfind2.
  { subst p2. simpl. apply (findIndex_insert _ _ _ w _ Hfind).
    subst widget. by rewrite StoreFacts.wid_mergeUpdates. }
  assert (instances p2 !! widgetId = Some c) as Hinst2
    by (subst p2; simpl; apply lookup_insert_eq).
  rewrite (updateWidget_step _ _ _ _ i widget Hfind2). cbv zeta. rewrite Hinst2.
  fold final.
  assert (Page.setConfig (wconfig final) c = c) as Ec.
  { subst final. simpl. apply setConfig_same. }
  rewrite Ec.
  assert (<[i := final]> (widgets (state (manager (engine p2))))
          = <[i := final]> (widgets (state (manager (engine p))))) as Ews
    by (subst p2; simpl; apply list_insert_insert_eq).
  assert (<[widgetId := c]> (instances p2) = <[widgetId := c]> (instances p)) as Einst
    by (subst p2; simpl; apply insert_insert_eq).
  rewrite Ews, Einst.
  destruct stack as [|stack].
  - subst p2. simpl. split_and!; try done. by rewrite <- app_assoc.
  - cbn [snd].
    match goal with |- context [Page.updateWidget stack widgetId _ ?q] => set (p3 := q) end.
    assert (State.findIndex widgetId (widgets (state (manager (engine p3))))
            = Some (i, final)) as Hfind3.
    { subst p3. simpl. apply (findIndex_insert _ _ _ w _ Hfind).
      subst final widget. by rewrite !StoreFacts.wid_mergeUpdates. }
    assert (instances p3 !! widgetId = Some c) as Hinst3
      by (subst p3; simpl; apply lookup_insert_eq).
    pose proof (updateWidget_settled stack widgetId p3 i final c Hfind3 eq_refl Hinst3)
      as Hsettled.
    cbv zeta in Hsettled. destruct Hsettled as (Es & Ei & Ee & El).
    rewrite Es, Ei, El. subst p3 p2. simpl. split_and!; try done.
    by rewrite <- !app_assoc.
Qed.

Lemma updates_replicate n e :
  isWidgetUpdated e = true →
  length (filter (fun e => isWidgetUpdated e = true) (replicate n e)) = n.
Proof.
  intros He. induction n as [|n IH]; [done|].
  simpl. rewrite filter_cons_True by done. simpl. by rewrite IH.
Qed.

End PageFacts.

(** C10: a drag rewrites the config of the dragged widget. On the page
    of the built-in layout with the module of the clock loaded, drag the
    clock (["clock-1"], 3x2 at (0,0)) to the free cell (0,7). [endDrag]
    commits the pair [{x: 0, y: 7}] through [moveWidget], and the record
    is at (0,7) with its size as before; but the [widget-updated] of
    that write reaches the instance of the clock, whose [setConfig]
    announces its own config, and the listener of the application
    writes that config to the record: the stored config, which had the
    four keys [title], [format], [showAnalog] and [timezone], now has
    [showDate] and [showSeconds] as well. The listener's write emits
    [widget-updated] again, and so on for as long as the call stack has
    room: with room for [stack + 1] nested calls the drag emits
    [stack + 2] events where the move alone emits one. *)
Theorem drag_rewrites_config (stack : nat) :
  let p := Page.dragGesture (S stack) "clock-1" 0 7 clockLoaded in
  configOf "clock-1" clockLoaded = Some (Some clockStoredConfig)
  ∧ rectOf <$> Grid.findWidget "clock-1" (engine p) = Some (mkRect 0 7 3 2)
  ∧ configOf "clock-1" p = Some (Some clockDefaultConfig)
  ∧ configOf "clock-1" p ≠ configOf "clock-1" clockLoaded
  ∧ length (filter (fun e => isWidgetUpdated e = true) (emitted (manager (engine p))))
    = (stack + 2)%nat.
Proof.
  intros p.
  set (w := mkWidget "clock-1" "clock" 0 0 3 2 false (Some clockStoredConfig)).
  set (pressed := mkPage (mkGridManager freshManager (mkGrid 12 60 8) true false
                            (Some (mkDragData "clock-1" w (0, 0))) None)
                         (instances clockLoaded)).
  set (moved := (Page.updateWidget (S stack) "clock-1" (positionUpdate 0 7) pressed).2).
  assert (p = mkPage (mkGridManager (manager (engine moved)) (mkGrid 12 60 8) false false
                                     None None)
                     (instances moved)) as Ep.
  { subst p. unfold Page.dragGesture, Page.endDrag.
    change (mkPage (Grid.handlePointerDown (OnWidgetHeader "clock-1") (engine clockLoaded))
                   (instances clockLoaded)) with pressed.
    cbn [engine pressed dragData drag_widgetId drag_originalPosition drag_widget
         gridSettings isResizing resizeData].
    replace (Grid.validatePosition _ _ _ _ _ _) with (0, 7) by (by vm_compute).
    reflexivity. }
  pose proof (PageFacts.updateWidget_round stack "clock-1" (positionUpdate 0 7) pressed 0%nat w
                (Page.createWidget clockDefaultConfig (Some clockStoredConfig))
                ltac:(by vm_compute) ltac:(by vm_compute)) as Hround.
  cbv zeta in Hround. fold moved in Hround. destruct Hround as (Es & _ & _ & El).
  assert (Page.setConfig (wconfig (State.mergeUpdates w (positionUpdate 0 7)))
                         (Page.createWidget clockDefaultConfig (Some clockStoredConfig))
          = clockDefaultConfig) as Ec by (by vm_compute).
  rewrite Ec in Es, El.
  split_and!.
  - reflexivity.
  - rewrite Ep. unfold Grid.findWidget. cbn [engine manager]. rewrite Es. by vm_compute.
  - rewrite Ep. unfold configOf, Grid.findWidget. cbn [engine manager]. rewrite Es.
    by vm_compute.
  - rewrite Ep. unfold configOf at 1, Grid.findWidget at 1. cbn [engine manager].
    rewrite Es. intros E. vm_compute in E. discriminate.
  - rewrite Ep. cbn [engine manager]. rewrite El.
    change (emitted (manager (engine pressed))) with (@nil Event).
    rewrite app_nil_l, !filter_cons_True by done. cbn [length].
    rewrite PageFacts.updates_replicate by done. lia.
Qed.
